(** * dynamic-training-bench: the evaluator and the training script

    A shallow embedding of [dytb/evaluators/Evaluator.py] and [train.py].

    Conventions of the embedding.
    - A Python [float] is an IEEE 754 binary64 number: Rocq's primitive
      [float].  [float('inf')] is [infinity], [np.isnan] is [is_nan], [>]
      and [<] are [ltb].  Primitive floats have one NaN; it stands for
      [float('nan')], whose sign bit is clear.
      The batch values that a session hands back are widened to binary64
      when they are added to the Python float [0.0], so the sums and the
      mean are binary64 operations.
    - A Python [int] is a [Z].  The true division of two ints followed by
      [math.ceil] is the exact ceiling of the quotient (the two agree on
      all operands below 2^53).
    - A call into the numeric framework (sessions, savers, summaries,
      queue runners) returns normally; the calls the properties speak of
      are recorded as [event]s, and what a call reads from the outside
      world is a field of an oracle record.  Exceptions raised by the
      program's own expressions (a division by zero, an unbound local, an
      explicit [raise], an attribute of [None]) are modelled, and so is
      [try]/[except]/[finally].
    - [input_type] is typed by the enum where [InputType.check] guards it.
    - Wall-clock timing ([time.time()], the examples per second of the
      progress line) is not modelled. *)

From Stdlib Require Import Floats ZArith Lia List Ascii String.
From stdpp Require Import gmap strings pretty.

Local Open Scope Z_scope.

(** ** Python floats *)

Module PyFloat.

(** [math.copysign(x, y)]: the magnitude of [x] with the sign bit of [y]. *)
Definition copysign (x y : float) : float :=
  if get_sign y then (- abs x)%float else abs x.

(** [float(n)] for a Python int: the nearest binary64 number. *)
Definition float_of_int (n : Z) : float :=
  SF2Prim (binary_normalize prec emax n 0 false).

(** [sum(vs, 0.0)], adding from the left as the evaluation loop does. *)
Definition sum (vs : list float) : float := fold_left PrimFloat.add vs 0%float.

(** The arithmetic mean of a list of floats, in floating point. *)
Definition mean (vs : list float) : float :=
  (sum vs / float_of_int (Z.of_nat (length vs)))%float.

End PyFloat.

(** ** Python values, exceptions and effects *)

Inductive exn :=
| ValueError (msg : string)
| ZeroDivisionError
| UnboundLocalError (var : string)
| AttributeError (attr : string).

Inductive outcome (A : Type) :=
| Returned (a : A)
| Raised (e : exn).
Arguments Returned {A} a.
Arguments Raised {A} e.

(** What [eval] hands back: [None] or a float. *)
Inductive pyval :=
| PyNone
| PyFloat (f : float).

(** [inputs.interfaces.InputType], the enum of the dataset splits. *)
Module InputType.
Inductive t := train | validation | test.
End InputType.

(** Which function of the [evaluate] module [train.py] calls. *)
Inductive evaluation := accuracy | error.

(** The observable actions of a run, in program order. *)
Inductive event :=
| Printed (msg : string)
| Restored (path : string)
| RunBatch (step : nat)
| RequestStop (exc : option exn)
| Join
| LogStep (step : Z) (loss_value : float)
| SaveTrain (dir : string) (step : Z)
| Evaluated (which : evaluation) (checkpoint_dir : string) (input_type : InputType.t)
| ValidationSummary (step : Z) (value : float)
| TrainSummary (step : Z) (value : float)
| PrintEpoch (epoch : Z) (train_value validation_value : float)
| SaveBest (dir : string) (step : Z).

(** A computation that logs events and returns or raises. *)
Definition Eff (A : Type) : Type := outcome A * list event.

Definition ret {A} (a : A) : Eff A := (Returned a, []).
Definition raise {A} (e : exn) : Eff A := (Raised e, []).

Definition bind {A B} (m : Eff A) (k : A -> Eff B) : Eff B :=
  match m with
  | (Returned a, l) => let (r, l') := k a in (r, l ++ l')
  | (Raised e, l) => (Raised e, l)
  end.

Notation "'let*' x ':=' m 'in' k" := (bind m (fun x => k))
  (at level 10, x name, m at level 100, k at level 200).

(** ** dytb/evaluators/Evaluator.py *)

Module Evaluator.

(** An augmentation function handed through to the dataset. *)
Inductive augmentation := Augmentation (id : nat).

(** The dataset handle (the Input interface), as far as [eval] uses it. *)
Record Dataset := {
  dataset_name : string;
  num_classes : Z;
  num_examples : InputType.t -> Z;
  (** [inputs(input_type, batch_size, augmentation_fn)] returns the input
      batch followed by the targets: the number of targets. *)
  inputs : InputType.t -> Z -> option augmentation -> nat;
}.

(** The model handle (the Model interface). *)
Record Model := {
  model_name : string;
  (** [get(inputs, num_classes, train_phase, l2_penalty)] returns a first
      value followed by the predictions: the number of predictions. *)
  get : Z -> bool -> nat;
}.

(** An element of [metrics]: a dict with these five keys. *)
Record Metric := {
  fn : nat;
  name : string;
  positive_trend_sign : float;
  model_selection : bool;
  average : bool;
}.

(** An [Evaluator] object; [metrics] is what the concrete subclass gives. *)
Record t := {
  _model : option Model;
  _dataset : option Dataset;
  metrics : list Metric;
}.

(** [__init__], then the two properties with their setters. *)
Definition __init__ (metrics : list Metric) : t :=
  {| _model := None; _dataset := None; metrics := metrics |}.

Definition model (self : t) : option Model := _model self.

Definition set_model (self : t) (model : option Model) : t :=
  {| _model := model; _dataset := _dataset self; metrics := metrics self |}.

Definition dataset (self : t) : option Dataset := _dataset self.

Definition set_dataset (self : t) (dataset : option Dataset) : t :=
  {| _model := _model self; _dataset := dataset; metrics := metrics self |}.

(** What one call of [eval] reads from the framework. *)
Record Session := {
  (** [tf.train.get_checkpoint_state(checkpoint_path)]: [None], or the
      state's [model_checkpoint_path]. *)
  get_checkpoint_state : string -> option string;
  (** [coord.should_stop()] at the loop test reached with [step = k]. *)
  should_stop : nat -> bool;
  (** [sess.run(metric_fn)] of the batch that brings [step] to [k]. *)
  run : nat -> float;
  (** Whether [coord.join] raises again the exception that was handed to
      [coord.request_stop] (TensorFlow's coordinator does). *)
  join_reraises : bool;
}.

(** [ckpt and ckpt.model_checkpoint_path]: the path when it is truthy. *)
Definition checkpoint_found (s : Session) (checkpoint_path : string) : option string :=
  match get_checkpoint_state s checkpoint_path with
  | Some "" => None
  | Some path => Some path
  | None => None
  end.

Definition cardinality_message (model : Model) (dataset : Dataset)
    (predictions targets : nat) : string :=
  model_name model +:+ ".get 2nd return value and " +:+ dataset_name dataset
  +:+ ".inputs 2nd return value must have the same cardinality but got: "
  +:+ pretty predictions +:+ " vs " +:+ pretty targets.

(** [float('inf') if math.copysign(1, positive_trend_sign) < 0 else float('-inf')] *)
Definition no_checkpoint_value (metric : Metric) : float :=
  let sign := PyFloat.copysign 1 (positive_trend_sign metric) in
  if (sign <? 0)%float then infinity else neg_infinity.

(** [int(math.ceil(num_examples / batch_size))] *)
Definition num_iter (num_examples batch_size : Z) : outcome Z :=
  if batch_size =? 0 then Raised ZeroDivisionError
  else Returned (- ((- num_examples) / batch_size)).

(** [while step < num_iter and not coord.should_stop()], entered with
    [remaining = num_iter - step] iterations to go; gives the final
    [step] and [metric_value_sum]. *)
Fixpoint while_loop (s : Session) (remaining step : nat) (metric_value_sum : float)
    : nat * float * list event :=
  match remaining with
  | O => (step, metric_value_sum, [])
  | S remaining' =>
      if should_stop s step then (step, metric_value_sum, [])
      else
        let step' := S step in
        let '(k, v, l) :=
          while_loop s remaining' step' (metric_value_sum + run s step')%float in
        (k, v, RunBatch step' :: l)
  end.

(** The body of the [try]: gives [avg_metric_value] or the exception. *)
Definition try_body (s : Session) (dataset : Dataset) (metric : Metric)
    (input_type : InputType.t) (batch_size : Z) : Eff float :=
  match num_iter (num_examples dataset input_type) batch_size with
  | Raised exc => (Raised exc, [])
  | Returned n =>
      let '(step, metric_value_sum, l) := while_loop s (Z.to_nat n) 0 0%float in
      if average metric then
        match step with
        | O => (Raised ZeroDivisionError, l)
        | S _ =>
            (Returned (metric_value_sum / PyFloat.float_of_int (Z.of_nat step))%float, l)
        end
      else (Returned metric_value_sum, l)
  end.

(** [Evaluator.eval]: the guards in the order of the source (dataset,
    model, cardinalities, checkpoint), then the [try] with its handler, the
    [finally], [coord.join] and the [return]. *)
Definition eval (s : Session) (self : t) (metric : Metric) (checkpoint_path : string)
    (input_type : InputType.t) (batch_size : Z)
    (augmentation_fn : option augmentation) : Eff pyval :=
  match dataset self with
  | None => raise (AttributeError "inputs")
  | Some dataset =>
    let targets := inputs dataset input_type batch_size augmentation_fn in
    match _model self with
    | None => raise (AttributeError "get")
    | Some model =>
      let predictions := get model (num_classes dataset) false in
      if negb (predictions =? targets)%nat then
        (Returned PyNone, [Printed (cardinality_message model dataset predictions targets)])
      else
        match checkpoint_found s checkpoint_path with
        | None =>
            (Returned (PyFloat (no_checkpoint_value metric)),
             [Printed "[!] No checkpoint file found"])
        | Some path =>
            match try_body s dataset metric input_type batch_size with
            | (Returned avg_metric_value, l) =>
                (Returned (PyFloat avg_metric_value),
                 Restored path :: l ++ [RequestStop None; Join])
            | (Raised exc, l) =>
                (Raised (if join_reraises s then exc
                         else UnboundLocalError "avg_metric_value"),
                 Restored path :: l ++ [RequestStop (Some exc); RequestStop None; Join])
            end
        end
    end
  end.

(** [{metric["name"]: self.eval(metric, ..., input_type, ...) for metric in ms}],
    the [j]-th call of the comprehension reading the session [w j]. *)
Fixpoint comprehension (w : nat -> Session) (self : t) (checkpoint_path : string)
    (input_type : InputType.t) (batch_size : Z)
    (augmentation_fn : option augmentation)
    (ms : list Metric) (j : nat) (acc : gmap string pyval) : Eff (gmap string pyval) :=
  match ms with
  | [] => ret acc
  | metric :: rest =>
      let* v := eval (w j) self metric checkpoint_path input_type batch_size
                  augmentation_fn in
      comprehension w self checkpoint_path input_type batch_size augmentation_fn
        rest (S j) (<[name metric := v]> acc)
  end.

(** [Evaluator.stats]: the three comprehensions in the order of the
    source; [w input_type j] is the session of the call for the [j]-th
    metric on that split. *)
Definition stats (w : InputType.t -> nat -> Session) (self : t)
    (checkpoint_path : string) (batch_size : Z)
    (augmentation_fn : option augmentation) : Eff (gmap string (gmap string pyval)) :=
  let* d_train := comprehension (w InputType.train) self checkpoint_path
      InputType.train batch_size augmentation_fn (metrics self) 0 ∅ in
  let* d_validation := comprehension (w InputType.validation) self checkpoint_path
      InputType.validation batch_size augmentation_fn (metrics self) 0 ∅ in
  let* d_test := comprehension (w InputType.test) self checkpoint_path
      InputType.test batch_size augmentation_fn (metrics self) 0 ∅ in
  ret (<["test" := d_test]> (<["validation" := d_validation]> (<["train" := d_train]> ∅))).

(** The key of [stats]' dictionary that holds a split. *)
Definition split_key (input_type : InputType.t) : string :=
  match input_type with
  | InputType.train => "train"
  | InputType.validation => "validation"
  | InputType.test => "test"
  end.

End Evaluator.

(** ** train.py *)

Module Train.

(** A Python object as [isinstance(_, InputType)] sees it. *)
Inductive pyobject :=
| InputTypeObject (t : InputType.t)
| OtherObject (repr : string).

(** [MODEL], as the two [isinstance] tests see it. *)
Record ModelObject := {
  is_Classifier : bool;
  is_Autoencoder : bool;
}.

(** [ARGS], the parsed command line. *)
Record Args := {
  model : string;
  batch_size : Z;
  epochs : Z;
  restart : bool;
}.

(** The module-level names the script sets before it calls [train()]. *)
Record Globals := {
  ARGS : Args;
  NAME : string;
  MODEL : ModelObject;
  STEPS_PER_EPOCH : Z;
  MAX_STEPS : Z;
  CURRENT_DIR : string;
  LOG_DIR : string;
  BEST_MODEL_DIR : string;
}.

(** The [evaluate] module: [evaluate.accuracy] and [evaluate.error] on a
    checkpoint directory and a split. *)
Definition EvaluateModule : Type := evaluation -> string -> InputType.t -> float.

(** What a training run reads from the framework. *)
Record World := {
  (** [tf.train.latest_checkpoint(LOG_DIR)] *)
  latest_checkpoint : string -> option string;
  (** [sess.run(global_step)] before the loop *)
  old_gs : Z;
  (** [loss_value] of the training step [step] *)
  loss : Z -> float;
  (** [sess.run(train_accuracy)] at [step] *)
  train_accuracy : Z -> float;
  (** what the [evaluate] module answers when called at [step] *)
  evaluate : Z -> EvaluateModule;
}.

(** [eval_model(checkpoint_dir, input_type)] *)
Definition eval_model (g : Globals) (evaluate : EvaluateModule)
    (checkpoint_dir : string) (input_type : pyobject) : Eff float :=
  match input_type with
  | OtherObject _ => raise (ValueError "Invalid input_type, required a valid InputType")
  | InputTypeObject input_type =>
      if is_Classifier (MODEL g) then
        (Returned (evaluate accuracy checkpoint_dir input_type),
         [Evaluated accuracy checkpoint_dir input_type])
      else if is_Autoencoder (MODEL g) then
        (Returned (evaluate error checkpoint_dir input_type),
         [Evaluated error checkpoint_dir input_type])
      else raise (ValueError "Evaluate method not defined for this model type")
  end.

(** How one pass of the loop body ends. *)
Inductive flow :=
| Continue (best : float)
| Break (best : float)
| Throw (e : exn).

(** [(step > 0 and step % STEPS_PER_EPOCH == 0) or (step + 1) == MAX_STEPS] *)
Definition epoch_end (g : Globals) (step : Z) : outcome bool :=
  if 0 <? step then
    if STEPS_PER_EPOCH g =? 0 then Raised ZeroDivisionError
    else Returned ((step mod STEPS_PER_EPOCH g =? 0) || (step + 1 =? MAX_STEPS g))
  else Returned (step + 1 =? MAX_STEPS g).

(** [int(step / STEPS_PER_EPOCH)] *)
Definition epoch_number (g : Globals) (step : Z) : outcome Z :=
  if STEPS_PER_EPOCH g =? 0 then Raised ZeroDivisionError
  else Returned (Z.quot step (STEPS_PER_EPOCH g)).

(** The body of the [for] of [classifier()].  The timing of a pass and the
    progress line of every tenth step, with its [ARGS.batch_size / duration],
    are the one event [LogStep]: the model follows the passes whose progress
    line is printed, those with a [duration] other than 0.0. *)
Definition classifier_step (g : Globals) (w : World) (step : Z) (best_va : float)
    : flow * list event :=
  let loss_value := loss w step in
  if is_nan loss_value then (Break best_va, [Printed "Model diverged with loss = NaN"])
  else
    let l10 := if step mod 10 =? 0 then [LogStep step loss_value] else [] in
    match epoch_end g step with
    | Raised e => (Throw e, l10)
    | Returned false => (Continue best_va, l10)
    | Returned true =>
        match eval_model g (evaluate w step) (LOG_DIR g)
                (InputTypeObject InputType.validation) with
        | (Raised e, le) => (Throw e, l10 ++ SaveTrain (LOG_DIR g) step :: le)
        | (Returned va_value, le) =>
            let ta_value := train_accuracy w step in
            let l := l10 ++ SaveTrain (LOG_DIR g) step :: le
                     ++ [ValidationSummary step va_value; TrainSummary step ta_value] in
            match epoch_number g step with
            | Raised e => (Throw e, l)
            | Returned epoch =>
                if (best_va <? va_value)%float then
                  (Continue va_value,
                   l ++ [PrintEpoch epoch ta_value va_value;
                         SaveBest (BEST_MODEL_DIR g) step])
                else (Continue best_va, l ++ [PrintEpoch epoch ta_value va_value])
            end
        end
    end.

(** The body of the [for] of [autoencoder()], with the progress line as in
    [classifier_step]. *)
Definition autoencoder_step (g : Globals) (w : World) (step : Z) (best_ve : float)
    : flow * list event :=
  let loss_value := loss w step in
  if is_nan loss_value then (Break best_ve, [Printed "Model diverged with loss = NaN"])
  else
    let l10 := if step mod 10 =? 0 then [LogStep step loss_value] else [] in
    match epoch_end g step with
    | Raised e => (Throw e, l10)
    | Returned false => (Continue best_ve, l10)
    | Returned true =>
        match eval_model g (evaluate w step) (LOG_DIR g)
                (InputTypeObject InputType.validation) with
        | (Raised e, le) => (Throw e, l10 ++ SaveTrain (LOG_DIR g) step :: le)
        | (Returned ve_value, le) =>
            let l := l10 ++ SaveTrain (LOG_DIR g) step :: le
                     ++ [ValidationSummary step ve_value] in
            match epoch_number g step with
            | Raised e => (Throw e, l)
            | Returned epoch =>
                if (ve_value <? best_ve)%float then
                  (Continue ve_value,
                   l ++ [PrintEpoch epoch loss_value ve_value;
                         SaveBest (BEST_MODEL_DIR g) step])
                else (Continue best_ve, l ++ [PrintEpoch epoch loss_value ve_value])
            end
        end
    end.

(** [for step in steps: body], threading the best value; a [break] or an
    exception ends it. *)
Fixpoint for_loop (body : Z -> float -> flow * list event) (steps : list Z)
    (best : float) : flow * list event :=
  match steps with
  | [] => (Continue best, [])
  | step :: rest =>
      match body step best with
      | (Continue best', l) =>
          let (f, l') := for_loop body rest best' in (f, l ++ l')
      | (f, l) => (f, l)
      end
  end.

(** [range(a, b)] *)
Definition range (a b : Z) : list Z := seqZ a (b - a).

(** [if not ARGS.restart: ...]: continue from the saved checkpoint. *)
Definition restore_previous (g : Globals) (w : World) : list event :=
  if restart (ARGS g) then []
  else
    match latest_checkpoint w (LOG_DIR g) with
    | None | Some "" => [Printed "[I] Unable to restore from checkpoint"]
    | Some checkpoint => [Restored checkpoint]
    end.

(** The code around the loop, shared by the two training functions: the
    optional restore, the loop from [old_gs] to [MAX_STEPS], the
    coordinator shutdown and [return best]. *)
Definition training (g : Globals) (w : World)
    (body : Z -> float -> flow * list event) (best : float) : Eff float :=
  let (f, l) := for_loop body (range (old_gs w) (MAX_STEPS g)) best in
  match f with
  | Continue best | Break best =>
      (Returned best, restore_previous g w ++ l ++ [RequestStop None; Join])
  | Throw e => (Raised e, restore_previous g w ++ l)
  end.

(** [classifier()] *)
Definition classifier (g : Globals) (w : World) : Eff float :=
  let best_va := 0%float in
  training g w (classifier_step g w) best_va.

(** [autoencoder()] *)
Definition autoencoder (g : Globals) (w : World) : Eff float :=
  let best_ve := infinity in
  training g w (autoencoder_step g w) best_ve.

(** [train()] *)
Definition train (g : Globals) (w : World) : Eff float :=
  if is_Classifier (MODEL g) then classifier g w
  else if is_Autoencoder (MODEL g) then autoencoder g w
  else raise (ValueError "train method not defined for this model type").

(** *** Reading a run's log *)

(** The epoch-end evaluations of a run: the step and the validation value
    of each, in order. *)
Definition evaluations (l : list event) : list (Z * float) :=
  omap (fun e => match e with
                 | ValidationSummary step value => Some (step, value)
                 | _ => None
                 end) l.


(** The steps at which the best model was saved. *)
Definition saved_best (l : list event) : list Z :=
  omap (fun e => match e with SaveBest _ step => Some step | _ => None end) l.

(** [va_value > best_va]: the new accuracy strictly exceeds the best. *)
Definition higher (best value : float) : bool := (best <? value)%float.

(** [ve_value < best_ve]: the new error is strictly below the best. *)
Definition lower (best value : float) : bool := (value <? best)%float.

(** The best value after a series of evaluations, when a value replaces
    the best exactly if it is [better]. *)
Definition best_of (better : float -> float -> bool) (start : float)
    (evs : list (Z * float)) : float :=
  fold_left (fun best ev => if better best (snd ev) then snd ev else best) evs start.

(** The steps whose evaluation is [better] than the best before it. *)
Fixpoint improvements (better : float -> float -> bool) (best : float)
    (evs : list (Z * float)) : list Z :=
  match evs with
  | [] => []
  | (step, value) :: rest =>
      if better best value then step :: improvements better value rest
      else improvements better best rest
  end.

(** *** The script: the two result files *)

(** [os.path.join(a, b)] *)
Definition path_join (a b : string) : string :=
  if String.prefix "/" b then b
  else if (String.eqb a "" || String.eqb (String.substring (String.length a - 1) 1 a) "/")%bool
       then a +:+ b
       else a +:+ "/" +:+ b.

(** The line feed that ends a result line. *)
Definition LF : string := String "010"%char "".

(** The files, by path, with their contents. *)
Abbreviation Files := (gmap string string).

(** [open(path, 'a')]: the file exists from now on. *)
Definition open_append (fs : Files) (path : string) : Files :=
  <[path := default "" (fs !! path)]> fs.

(** [with open(path, 'a') as res: res.write(text)] *)
Definition append (fs : Files) (path text : string) : Files :=
  <[path := default "" (fs !! path) +:+ text]> fs.

(** What the last lines of the script read from outside. *)
Record ScriptWorld := {
  run : World;
  (** [datetime.now()] as text, at the first and at the second write *)
  now_validation : string;
  now_test : string;
  (** how [format] writes a float *)
  format_float : float -> string;
  (** the [evaluate] module after the training *)
  final_evaluate : EvaluateModule;
}.

(** ['{} {}: {} {}\n'.format(now, ARGS.model, NAME, value)] *)
Definition result_line (now model NAME value : string) : string :=
  now +:+ " " +:+ model +:+ ": " +:+ NAME +:+ " " +:+ value +:+ LF.

(** The number of line ends in a text. *)
Fixpoint newlines (s : string) : nat :=
  match s with
  | EmptyString => 0
  | String c rest => ((if Ascii.eqb c "010" then 1 else 0) + newlines rest)%nat
  end.

Definition validation_results (g : Globals) : string :=
  path_join (CURRENT_DIR g) "validation_results.txt".

Definition test_results (g : Globals) : string :=
  path_join (CURRENT_DIR g) "test_results.txt".

(** The script from [VALIDATION_METRIC = train()] on.  [Files] holds what
    the script itself opens, its two result files; the checkpoints that
    [train()] has the framework write under [LOG_DIR] and [BEST_MODEL_DIR]
    are the events [SaveTrain] and [SaveBest] of the log. *)
Definition main (g : Globals) (sw : ScriptWorld) (fs : Files) : Eff unit * Files :=
  match train g (run sw) with
  | (Raised e, l) => ((Raised e, l), fs)
  | (Returned VALIDATION_METRIC, l) =>
      let fs := append fs (validation_results g)
                  (result_line (now_validation sw) (model (ARGS g)) (NAME g)
                     (format_float sw VALIDATION_METRIC)) in
      match eval_model g (final_evaluate sw) (BEST_MODEL_DIR g)
              (InputTypeObject InputType.test) with
      | (Raised e, l') => ((Raised e, l ++ l'), open_append fs (test_results g))
      | (Returned test_value, l') =>
          ((Returned tt, l ++ l'),
           append fs (test_results g)
             (result_line (now_test sw) (model (ARGS g)) (NAME g)
                (format_float sw test_value)))
      end
  end.

End Train.

(** ** Concrete handles, sessions and runs *)

Module Examples.
Import Evaluator.

Definition mnist (examples : Z) : Dataset :=
  {| dataset_name := "MNIST"; num_classes := 10;
     num_examples := fun _ => examples; inputs := fun _ _ _ => 1%nat |}.

Definition lenet : Model := {| model_name := "LeNet"; get := fun _ _ => 1%nat |}.

(** A model that returns two predictions where the dataset has one target. *)
Definition two_heads : Model := {| model_name := "TwoHeads"; get := fun _ _ => 2%nat |}.

Definition accuracy_metric : Metric :=
  {| fn := 0; name := "accuracy"; positive_trend_sign := 1;
     model_selection := true; average := true |}.

Definition loss_metric : Metric :=
  {| fn := 1; name := "loss"; positive_trend_sign := (-1);
     model_selection := false; average := false |}.

Definition evaluator (model : Model) (dataset : Dataset) : t :=
  set_dataset (set_model (__init__ [accuracy_metric; loss_metric]) (Some model))
    (Some dataset).

(** A checkpoint is there, nothing stops the coordinator, the [k]-th batch
    evaluates to [k]. *)
Definition steady : Session :=
  {| get_checkpoint_state := fun _ => Some "log/model.ckpt-10";
     should_stop := fun _ => false;
     run := fun k => PyFloat.float_of_int (Z.of_nat k);
     join_reraises := false |}.

(** As [steady], with the coordinator stopped before the first batch. *)
Definition stopped : Session :=
  {| get_checkpoint_state := fun _ => Some "log/model.ckpt-10";
     should_stop := fun _ => true;
     run := fun k => PyFloat.float_of_int (Z.of_nat k);
     join_reraises := false |}.

(** No checkpoint in the directory. *)
Definition fresh : Session :=
  {| get_checkpoint_state := fun _ => None;
     should_stop := fun _ => false;
     run := fun k => PyFloat.float_of_int (Z.of_nat k);
     join_reraises := false |}.

End Examples.

Module TrainExamples.
Import Train.

(** Two epochs of three steps. *)
Definition globals (MODEL : ModelObject) : Globals :=
  {| ARGS := {| model := "LeNet"; batch_size := 4; epochs := 2; restart := false |};
     NAME := "run1"; MODEL := MODEL;
     STEPS_PER_EPOCH := 3; MAX_STEPS := 6;
     CURRENT_DIR := "/home/u/dtb";
     LOG_DIR := "/home/u/dtb/log/LeNet/run1";
     BEST_MODEL_DIR := "/home/u/dtb/log/LeNet/run1/best" |}.

Definition a_classifier : ModelObject :=
  {| is_Classifier := true; is_Autoencoder := false |}.

Definition an_autoencoder : ModelObject :=
  {| is_Classifier := false; is_Autoencoder := true |}.

Definition something_else : ModelObject :=
  {| is_Classifier := false; is_Autoencoder := false |}.

(** The validation value is 0.25 at step 3 and 0.75 afterwards. *)
Definition improving : World :=
  {| latest_checkpoint := fun _ => None; old_gs := 0;
     loss := fun _ => 1%float; train_accuracy := fun _ => 0.5%float;
     evaluate := fun step _ _ _ => if step =? 3 then 0.25%float else 0.75%float |}.

(** As [improving], with a NaN loss at step 4. *)
Definition diverging : World :=
  {| latest_checkpoint := fun _ => None; old_gs := 0;
     loss := fun step => if step =? 4 then nan else 1%float;
     train_accuracy := fun _ => 0.5%float;
     evaluate := fun step _ _ _ => if step =? 3 then 0.25%float else 0.75%float |}.

(** The end of the script after the run [improving]. *)
Definition script : ScriptWorld :=
  {| run := improving;
     now_validation := "2017-03-01 10:00:00.000001";
     now_test := "2017-03-01 10:05:00.000002";
     format_float := fun f => if (f =? 0.75)%float then "0.75" else "0.5";
     final_evaluate := fun _ _ _ => 0.5%float |}.

(** The validation file already holds the line of an earlier run. *)
Definition earlier : Files :=
  {[ "/home/u/dtb/validation_results.txt"
     := "2017-02-28 09:00:00.000001 LeNet: run0 0.5" +:+ LF ]}.

End TrainExamples.

(** ** train.py: reading the log of a training *)

Module Script.
Import Train.

(** The test of the training loops for an epoch-end evaluation at [step],
    as a boolean. *)
Definition at_epoch_end (g : Globals) (step : Z) : bool :=
  (0 <? step) && (step mod STEPS_PER_EPOCH g =? 0) || (step + 1 =? MAX_STEPS g).

(** What an event of a training may be: an evaluation of [LOG_DIR] on the
    validation split with the function of the model's kind, a training
    checkpoint in [LOG_DIR], a best model in [BEST_MODEL_DIR], a restore of
    the latest checkpoint of [LOG_DIR] when the run is not a restart. *)
Definition in_place (g : Globals) (w : World) (e : event) : Prop :=
  match e with
  | Evaluated which dir input_type =>
      which = (if is_Classifier (MODEL g) then accuracy else error)
      /\ dir = LOG_DIR g /\ input_type = InputType.validation
  | SaveTrain dir _ => dir = LOG_DIR g
  | SaveBest dir _ => dir = BEST_MODEL_DIR g
  | Restored path =>
      restart (ARGS g) = false /\ latest_checkpoint w (LOG_DIR g) = Some path
  | RunBatch _ => False
  | _ => True
  end.

End Script.

(** ** Further sessions and runs *)

Module MoreExamples.
Import Evaluator.

(** As [Examples.steady], with the coordinator stopped once two batches
    have run. *)
Definition interrupted : Session :=
  {| get_checkpoint_state := fun _ => Some "log/model.ckpt-10";
     should_stop := fun k => (2 <=? k)%nat;
     run := fun k => PyFloat.float_of_int (Z.of_nat k);
     join_reraises := false |}.

(** An evaluator of two metrics that bear one name. *)
Definition homonyms : t :=
  set_dataset
    (set_model (__init__ [Examples.accuracy_metric;
                          {| fn := 2; name := "accuracy"; positive_trend_sign := 1;
                             model_selection := false; average := false |}])
       (Some Examples.lenet))
    (Some (Examples.mnist 10)).

End MoreExamples.

Module MoreTrainExamples.
Import Train.

(** A run resumed after its last step: the global step is [MAX_STEPS]. *)
Definition finished : World :=
  {| latest_checkpoint := fun _ => Some "/home/u/dtb/log/LeNet/run1/model.ckpt-5";
     old_gs := 6;
     loss := fun _ => 1%float; train_accuracy := fun _ => 0.5%float;
     evaluate := fun _ _ _ _ => 0.75%float |}.

(** The end of a second run of the script, a day later. *)
Definition second_script : ScriptWorld :=
  {| run := TrainExamples.improving;
     now_validation := "2017-03-02 10:00:00.000001";
     now_test := "2017-03-02 10:05:00.000002";
     format_float := fun f => if (f =? 0.75)%float then "0.75" else "0.5";
     final_evaluate := fun _ _ _ => 0.5%float |}.

End MoreTrainExamples.

(** ** Facts about Python floats *)

Module PyFloatFacts.
Import PyFloat.

Lemma SFcompare_Lt_trans x y z :
  SFcompare x y = Some Lt -> SFcompare y z = Some Lt -> SFcompare x z = Some Lt.
Proof.
  destruct x as [sx|sx| |sx mx ex], y as [sy|sy| |sy my ey],
           z as [sz|sz| |sz mz ez]; simpl;
    repeat match goal with s : bool |- _ => destruct s end;
    try congruence.
  all: change (Pos.compare_cont Eq) with Pos.compare.
  all: destruct (Z.compare_spec ex ey), (Z.compare_spec ey ez),
         (Z.compare_spec ex ez); try congruence; try lia.
  all: subst.
  all: destruct (Pos.compare_spec mx my), (Pos.compare_spec my mz),
         (Pos.compare_spec mx mz); simpl; try congruence; try lia.
Qed.

Lemma SFcompare_refl x : SFcompare x x = Some Eq \/ x = S754_nan.
Proof.
  destruct x as [s|s| |s m e]; simpl; auto; left.
  - destruct s; reflexivity.
  - change (Pos.compare_cont Eq) with Pos.compare.
    rewrite Z.compare_refl, Pos.compare_refl. destruct s; reflexivity.
Qed.

(** [<] on floats is a strict order; NaN is below and above nothing. *)
Lemma ltb_trans (a b c : float) :
  (a <? b)%float = true -> (b <? c)%float = true -> (a <? c)%float = true.
Proof.
  rewrite !ltb_spec. unfold SFltb. intros H1 H2.
  rewrite (SFcompare_Lt_trans (Prim2SF a) (Prim2SF b) (Prim2SF c)); auto.
  - destruct (SFcompare (Prim2SF a) (Prim2SF b)) as [[]|]; congruence.
  - destruct (SFcompare (Prim2SF b) (Prim2SF c)) as [[]|]; congruence.
Qed.

Lemma ltb_irrefl (a : float) : (a <? a)%float = false.
Proof.
  rewrite ltb_spec. unfold SFltb.
  destruct (SFcompare_refl (Prim2SF a)) as [-> | ->]; reflexivity.
Qed.


Lemma is_nan_SF (a : float) : is_nan a = true <-> Prim2SF a = S754_nan.
Proof.
  unfold is_nan. rewrite FloatAxioms.eqb_spec. unfold SFeqb. split.
  - destruct (SFcompare_refl (Prim2SF a)) as [-> | E]; [discriminate | auto].
  - intros ->. reflexivity.
Qed.





(** Every number is at most [+inf]. *)
Lemma leb_infinity (a : float) : is_nan a = false -> (a <=? infinity)%float = true.
Proof.
  intros Ha. rewrite leb_spec.
  assert (Hn : Prim2SF a <> S754_nan).
  { intros E. apply is_nan_SF in E. congruence. }
  change (Prim2SF infinity) with (S754_infinity false).
  destruct (Prim2SF a) as [s|s| |s m e]; try reflexivity; [|congruence].
  destruct s; reflexivity.
Qed.

Lemma eqb_refl (a : float) : is_nan a = false -> (a =? a)%float = true.
Proof. unfold is_nan. destruct (a =? a)%float; [reflexivity | discriminate]. Qed.

(** [math.copysign(1, y) < 0] tests the sign bit of [y]. *)
Lemma copysign_one_neg (y : float) : (copysign 1 y <? 0)%float = get_sign y.
Proof. unfold copysign. destruct (get_sign y); reflexivity. Qed.

End PyFloatFacts.

(** ** Facts about the evaluator *)

Module EvaluatorFacts.
Import Evaluator.

(** The exact ceiling of [n / b]. *)
Lemma num_iter_ceiling (n b q : Z) :
  0 < b -> (q - 1) * b < n <= q * b -> num_iter n b = Returned q.
Proof.
  intros Hb Hq. unfold num_iter.
  destruct (Z.eqb_spec b 0) as [->|_]; [lia|]. f_equal.
  pose proof (Z.div_mod (- n) b ltac:(lia)) as E.
  pose proof (Z.mod_pos_bound (- n) b Hb) as B.
  nia.
Qed.

Lemma while_loop_runs (s : Session) (remaining step : nat) (sum : float) :
  (forall k, (step <= k < step + remaining)%nat -> should_stop s k = false) ->
  while_loop s remaining step sum
  = ((step + remaining)%nat,
     fold_left PrimFloat.add (map (run s) (seq (S step) remaining)) sum,
     map RunBatch (seq (S step) remaining)).
Proof.
  revert step sum. induction remaining as [|r IH]; intros step sum H; simpl.
  - rewrite Nat.add_0_r. reflexivity.
  - rewrite H by lia. rewrite IH by (intros; apply H; lia).
    replace (S step + r)%nat with (step + S r)%nat by lia. reflexivity.
Qed.

Lemma while_loop_step_le (s : Session) (remaining step : nat) (sum : float) k v l :
  while_loop s remaining step sum = (k, v, l) -> (step <= k)%nat.
Proof.
  revert step sum k v l. induction remaining as [|r IH]; intros step sum k v l; simpl.
  - intros [= <- _ _]. lia.
  - destruct (should_stop s step); [intros [= <- _ _]; lia|].
    destruct (while_loop s r (S step) _) as [[k1 v1] l1] eqn:E.
    intros [= <- _ _]. apply IH in E. lia.
Qed.

(** From [step = 0], the loop ends with [step = 0] exactly when no batch ran. *)
Lemma while_loop_first (s : Session) (remaining : nat) (sum : float) k v l :
  while_loop s remaining 0 sum = (k, v, l) ->
  (k = 0%nat /\ l = []) \/ ((0 < k)%nat /\ In (RunBatch 1) l).
Proof.
  destruct remaining as [|r]; simpl.
  - intros [= <- _ <-]. auto.
  - destruct (should_stop s 0); [intros [= <- _ <-]; auto|].
    destruct (while_loop s r 1 _) as [[k1 v1] l1] eqn:E.
    intros [= <- _ <-]. apply while_loop_step_le in E. right. split; [lia|].
    left. reflexivity.
Qed.

Lemma eval_reaches_try (s : Session) (self : t) (ds : Dataset) (md : Model)
    (metric : Metric) (checkpoint_path path : string) (input_type : InputType.t)
    (batch_size : Z) (aug : option augmentation) :
  dataset self = Some ds -> model self = Some md ->
  get md (num_classes ds) false = inputs ds input_type batch_size aug ->
  checkpoint_found s checkpoint_path = Some path ->
  eval s self metric checkpoint_path input_type batch_size aug
  = match try_body s ds metric input_type batch_size with
    | (Returned avg_metric_value, l) =>
        (Returned (PyFloat avg_metric_value),
         Restored path :: l ++ [RequestStop None; Join])
    | (Raised exc, l) =>
        (Raised (if join_reraises s then exc else UnboundLocalError "avg_metric_value"),
         Restored path :: l ++ [RequestStop (Some exc); RequestStop None; Join])
    end.
Proof.
  unfold eval, model. intros -> -> -> ->. rewrite Nat.eqb_refl. reflexivity.
Qed.

(** C1 (as amended): with a checkpoint found, as many predictions as
    targets, [batch_size > 0], no coordinator stop, and at least one
    example when the metric is averaged, [eval] runs exactly
    [n = ceil(num_examples / batch_size)] batches and returns the arithmetic
    mean of the [n] batch values if [metric["average"]], their sum if not. *)
Theorem eval_runs_num_iter_batches
    (s : Session) (self : t) (ds : Dataset) (md : Model) (metric : Metric)
    (checkpoint_path path : string) (input_type : InputType.t) (batch_size : Z)
    (aug : option augmentation) (n : Z) :
  dataset self = Some ds -> model self = Some md ->
  0 < batch_size ->
  checkpoint_found s checkpoint_path = Some path ->
  get md (num_classes ds) false = inputs ds input_type batch_size aug ->
  (n - 1) * batch_size < num_examples ds input_type <= n * batch_size ->
  (forall k, (k < Z.to_nat n)%nat -> should_stop s k = false) ->
  (average metric = true -> 1 <= num_examples ds input_type) ->
  let values := map (run s) (seq 1 (Z.to_nat n)) in
  eval s self metric checkpoint_path input_type batch_size aug
  = (Returned (PyFloat (if average metric then PyFloat.mean values
                        else PyFloat.sum values)),
     Restored path :: map RunBatch (seq 1 (Z.to_nat n)) ++ [RequestStop None; Join]).
Proof.
  intros Hds Hmd Hb Hck Hcard Hn Hstop Havg values.
  rewrite (eval_reaches_try s self ds md metric checkpoint_path path) by assumption.
  unfold try_body. rewrite (num_iter_ceiling _ _ n Hb Hn).
  rewrite while_loop_runs by (intros k Hk; apply Hstop; lia).
  fold values. change (fold_left PrimFloat.add values 0%float) with (PyFloat.sum values).
  destruct (average metric) eqn:Ha; [|reflexivity].
  specialize (Havg eq_refl).
  assert (Hn1 : 1 <= n) by nia.
  destruct (Z.to_nat n) as [|m] eqn:Em; [lia|]. simpl Nat.add.
  unfold PyFloat.mean. subst values.
  rewrite length_map, length_seq. reflexivity.
Qed.

(** Ten examples in batches of four: three batches, whose mean is 2. *)
Lemma eval_runs_num_iter_batches_witness :
  Evaluator.eval Examples.steady (Examples.evaluator Examples.lenet (Examples.mnist 10))
    Examples.accuracy_metric "log" InputType.test 4 None
  = (Returned (PyFloat 2%float),
     [Restored "log/model.ckpt-10"; RunBatch 1; RunBatch 2; RunBatch 3;
      RequestStop None; Join]).
Proof.
  refine (eval_runs_num_iter_batches Examples.steady
            (Examples.evaluator Examples.lenet (Examples.mnist 10))
            (Examples.mnist 10) Examples.lenet Examples.accuracy_metric
            "log" "log/model.ckpt-10" InputType.test 4 None 3 _ _ _ _ _ _ _ _);
    try reflexivity; simpl; intros; lia.
Defined.

(** C1, as stated, fails on an empty split: a checkpoint is found, the
    cardinalities match, [batch_size = 1 > 0], no coordinator stop, and the
    averaged metric makes [eval] raise instead of returning a mean. *)
Lemma eval_empty_split_average_raises :
  checkpoint_found Examples.steady "log" = Some "log/model.ckpt-10"
  /\ get Examples.lenet 10 false
     = inputs (Examples.mnist 0) InputType.test 1 None
  /\ average Examples.accuracy_metric = true
  /\ Evaluator.eval Examples.steady
       (Examples.evaluator Examples.lenet (Examples.mnist 0))
       Examples.accuracy_metric "log" InputType.test 1 None
     = (Raised (UnboundLocalError "avg_metric_value"),
        [Restored "log/model.ckpt-10"; RequestStop (Some ZeroDivisionError);
         RequestStop None; Join]).
Proof. repeat split. Qed.

(** C2: when the checkpoint lookup finds nothing, [eval] runs no batch and
    returns [+inf] if the sign of [metric["positive_trend_sign"]] is
    negative, [-inf] otherwise. *)
Theorem eval_no_checkpoint_sentinel
    (s : Session) (self : t) (ds : Dataset) (md : Model) (metric : Metric)
    (checkpoint_path : string) (input_type : InputType.t) (batch_size : Z)
    (aug : option augmentation) :
  dataset self = Some ds -> model self = Some md ->
  get md (num_classes ds) false = inputs ds input_type batch_size aug ->
  checkpoint_found s checkpoint_path = None ->
  eval s self metric checkpoint_path input_type batch_size aug
  = (Returned (PyFloat (if get_sign (positive_trend_sign metric)
                        then infinity else neg_infinity)),
     [Printed "[!] No checkpoint file found"])
  /\ forall k, ~ In (RunBatch k)
                 (snd (eval s self metric checkpoint_path input_type batch_size aug)).
Proof.
  intros Hds Hmd Hcard Hck.
  assert (E : eval s self metric checkpoint_path input_type batch_size aug
              = (Returned (PyFloat (if get_sign (positive_trend_sign metric)
                                    then infinity else neg_infinity)),
                 [Printed "[!] No checkpoint file found"])).
  { unfold eval. unfold model in Hmd.
    rewrite Hds, Hmd, Hcard, Nat.eqb_refl, Hck. simpl.
    unfold no_checkpoint_value. rewrite PyFloatFacts.copysign_one_neg. reflexivity. }
  split; [exact E|]. intros k. rewrite E. simpl. intros [H|[]]. discriminate.
Qed.

(** Without a checkpoint the loss (trend sign -1) evaluates to [+inf], the
    accuracy (trend sign 1) to [-inf]. *)
Lemma eval_no_checkpoint_sentinel_witness :
  (Evaluator.eval Examples.fresh (Examples.evaluator Examples.lenet (Examples.mnist 10))
     Examples.loss_metric "log" InputType.validation 4 None
   = (Returned (PyFloat infinity), [Printed "[!] No checkpoint file found"])
   /\ forall k, ~ In (RunBatch k)
        (snd (Evaluator.eval Examples.fresh
                (Examples.evaluator Examples.lenet (Examples.mnist 10))
                Examples.loss_metric "log" InputType.validation 4 None)))
  /\ Evaluator.eval Examples.fresh (Examples.evaluator Examples.lenet (Examples.mnist 10))
       Examples.accuracy_metric "log" InputType.validation 4 None
     = (Returned (PyFloat neg_infinity), [Printed "[!] No checkpoint file found"]).
Proof.
  split; [|reflexivity].
  exact (eval_no_checkpoint_sentinel Examples.fresh
           (Examples.evaluator Examples.lenet (Examples.mnist 10))
           (Examples.mnist 10) Examples.lenet Examples.loss_metric "log"
           InputType.validation 4 None eq_refl eq_refl eq_refl eq_refl).
Defined.

(** C4: when [model.get] returns a number of predictions other than the
    number of targets of [dataset.inputs], [eval] prints the message and
    returns [None]; no checkpoint is restored and no batch is run. *)
Theorem eval_cardinality_mismatch
    (s : Session) (self : t) (ds : Dataset) (md : Model) (metric : Metric)
    (checkpoint_path : string) (input_type : InputType.t) (batch_size : Z)
    (aug : option augmentation) :
  dataset self = Some ds -> model self = Some md ->
  get md (num_classes ds) false <> inputs ds input_type batch_size aug ->
  eval s self metric checkpoint_path input_type batch_size aug
  = (Returned PyNone,
     [Printed (cardinality_message md ds (get md (num_classes ds) false)
               (inputs ds input_type batch_size aug))])
  /\ (forall path, ~ In (Restored path)
         (snd (eval s self metric checkpoint_path input_type batch_size aug)))
  /\ (forall k, ~ In (RunBatch k)
         (snd (eval s self metric checkpoint_path input_type batch_size aug))).
Proof.
  intros Hds Hmd Hne.
  assert (E : eval s self metric checkpoint_path input_type batch_size aug
              = (Returned PyNone,
                 [Printed (cardinality_message md ds (get md (num_classes ds) false)
                           (inputs ds input_type batch_size aug))])).
  { unfold eval. unfold model in Hmd. rewrite Hds, Hmd.
    destruct (Nat.eqb_spec (get md (num_classes ds) false)
                (inputs ds input_type batch_size aug)); [contradiction|reflexivity]. }
  rewrite E. simpl. repeat split; intros x [H|[]]; discriminate.
Qed.

(** Two predictions against one target. *)
Lemma eval_cardinality_mismatch_witness :
  Evaluator.eval Examples.steady
    (Examples.evaluator Examples.two_heads (Examples.mnist 10))
    Examples.accuracy_metric "log" InputType.test 4 None
  = (Returned PyNone,
     [Printed "TwoHeads.get 2nd return value and MNIST.inputs 2nd return value must have the same cardinality but got: 2 vs 1"]).
Proof.
  refine (proj1 (eval_cardinality_mismatch Examples.steady
                   (Examples.evaluator Examples.two_heads (Examples.mnist 10))
                   (Examples.mnist 10) Examples.two_heads Examples.accuracy_metric
                   "log" InputType.test 4 None eq_refl eq_refl _)).
  simpl. discriminate.
Defined.

(** C8, as stated, fails when the coordinator stops before the first batch:
    one example, [batch_size = 1], and the averaged metric still divides by
    zero, the handler takes the exception and the return finds no value. *)
Lemma eval_stopped_before_first_batch_raises :
  1 <= num_examples (Examples.mnist 1) InputType.test
  /\ average Examples.accuracy_metric = true
  /\ should_stop Examples.stopped 0 = true
  /\ Evaluator.eval Examples.stopped
       (Examples.evaluator Examples.lenet (Examples.mnist 1))
       Examples.accuracy_metric "log" InputType.test 1 None
     = (Raised (UnboundLocalError "avg_metric_value"),
        [Restored "log/model.ckpt-10"; RequestStop (Some ZeroDivisionError);
         RequestStop None; Join]).
Proof. repeat split. discriminate. Qed.

(** C8 (as amended): for an averaged metric, once the [try] is reached,
    [eval] returns a value exactly when at least one batch ran.  With
    [num_examples = 0] none runs: the division by zero is handed to the
    coordinator and no value is returned (the [return] finds
    [avg_metric_value] unassigned, unless [coord.join] raises the division
    error again).  With [num_examples >= 1], [batch_size >= 1] and no
    coordinator stop before the first batch, [eval] returns a float. *)
Theorem eval_returns_iff_a_batch_ran
    (s : Session) (self : t) (ds : Dataset) (md : Model) (metric : Metric)
    (checkpoint_path path : string) (input_type : InputType.t) (batch_size : Z)
    (aug : option augmentation) :
  dataset self = Some ds -> model self = Some md ->
  get md (num_classes ds) false = inputs ds input_type batch_size aug ->
  checkpoint_found s checkpoint_path = Some path ->
  average metric = true ->
  (num_examples ds input_type = 0 ->
     eval s self metric checkpoint_path input_type batch_size aug
     = (Raised (if join_reraises s then ZeroDivisionError
                else UnboundLocalError "avg_metric_value"),
        [Restored path; RequestStop (Some ZeroDivisionError); RequestStop None; Join]))
  /\ ((exists v, fst (eval s self metric checkpoint_path input_type batch_size aug)
                 = Returned v)
      <-> In (RunBatch 1)
            (snd (eval s self metric checkpoint_path input_type batch_size aug)))
  /\ (1 <= num_examples ds input_type -> 1 <= batch_size -> should_stop s 0 = false ->
      exists v l, eval s self metric checkpoint_path input_type batch_size aug
                  = (Returned (PyFloat v), l)).
Proof.
  intros Hds Hmd Hcard Hck Havg.
  rewrite (eval_reaches_try s self ds md metric checkpoint_path path) by assumption.
  unfold try_body. rewrite Havg. repeat split.
  - intros ->. unfold num_iter. destruct (batch_size =? 0); reflexivity.
  - intros [v Hv]. destruct (num_iter _ _) as [n|e]; [|discriminate].
    destruct (while_loop s (Z.to_nat n) 0 0%float) as [[k sum] l] eqn:E.
    destruct (while_loop_first _ _ _ _ _ _ E) as [[-> ->]|[Hk Hin]];
      [discriminate|].
    destruct k; [lia|]. simpl. right. apply in_or_app. auto.
  - destruct (num_iter _ _) as [n|e]; [|simpl; intuition discriminate].
    destruct (while_loop s (Z.to_nat n) 0 0%float) as [[k sum] l] eqn:E.
    destruct (while_loop_first _ _ _ _ _ _ E) as [[-> ->]|[Hk Hin]].
    + simpl. intuition discriminate.
    + destruct k; [lia|]. simpl. eauto.
  - intros Hn Hb Hstop.
    assert (Hq : exists q, 1 <= q /\ num_iter (num_examples ds input_type) batch_size
                                     = Returned q).
    { exists (- (- num_examples ds input_type / batch_size)). split.
      - pose proof (Z.div_lt_upper_bound (- num_examples ds input_type) batch_size 0).
        lia.
      - unfold num_iter. destruct (Z.eqb_spec batch_size 0); [lia|reflexivity]. }
    destruct Hq as (q & Hq & ->).
    destruct (Z.to_nat q) as [|r] eqn:Er; [lia|].
    simpl. rewrite Hstop.
    destruct (while_loop s r 1 _) as [[k sum] l] eqn:E.
    apply while_loop_step_le in E. destruct k; [lia|]. eauto.
Qed.

(** An empty split fails; ten examples in batches of four give a float. *)
Lemma eval_returns_iff_a_batch_ran_witness :
  Evaluator.eval Examples.steady
    (Examples.evaluator Examples.lenet (Examples.mnist 0))
    Examples.accuracy_metric "log" InputType.test 4 None
  = (Raised (UnboundLocalError "avg_metric_value"),
     [Restored "log/model.ckpt-10"; RequestStop (Some ZeroDivisionError);
      RequestStop None; Join])
  /\ exists v l,
       Evaluator.eval Examples.steady
         (Examples.evaluator Examples.lenet (Examples.mnist 10))
         Examples.accuracy_metric "log" InputType.test 4 None
       = (Returned (PyFloat v), l).
Proof.
  split.
  - exact (proj1 (eval_returns_iff_a_batch_ran Examples.steady
                    (Examples.evaluator Examples.lenet (Examples.mnist 0))
                    (Examples.mnist 0) Examples.lenet Examples.accuracy_metric
                    "log" "log/model.ckpt-10" InputType.test 4 None
                    eq_refl eq_refl eq_refl eq_refl eq_refl) eq_refl).
  - refine (proj2 (proj2 (eval_returns_iff_a_batch_ran Examples.steady
                    (Examples.evaluator Examples.lenet (Examples.mnist 10))
                    (Examples.mnist 10) Examples.lenet Examples.accuracy_metric
                    "log" "log/model.ckpt-10" InputType.test 4 None
                    eq_refl eq_refl eq_refl eq_refl eq_refl)) _ _ eq_refl);
      simpl; lia.
Defined.

(** C9: a fresh evaluator has neither model nor dataset; each setter is
    read back by its own getter and leaves the other property as it was. *)
Theorem evaluator_properties_round_trip :
  (forall ms, model (__init__ ms) = None /\ dataset (__init__ ms) = None)
  /\ (forall self m,
        model (set_model self m) = m /\ dataset (set_model self m) = dataset self)
  /\ (forall self d,
        dataset (set_dataset self d) = d /\ model (set_dataset self d) = model self).
Proof. repeat split. Qed.

Lemma fst_bind_Returned {A B} (m : Eff A) (k : A -> Eff B) (a : A) :
  fst m = Returned a -> fst (bind m k) = fst (k a).
Proof. destruct m as [[a'|e] l]; simpl; [|discriminate]. intros [= ->]. destruct (k a); reflexivity. Qed.

Lemma fst_bind_Raised {A B} (m : Eff A) (k : A -> Eff B) (e : exn) :
  fst m = Raised e -> fst (bind m k) = Raised e.
Proof. destruct m as [[a|e'] l]; simpl; [discriminate|]. intros [= ->]. reflexivity. Qed.

Section Stats.
Variables (self : t) (checkpoint_path : string) (batch_size : Z)
          (aug : option augmentation).

(** A comprehension one of whose calls raises, raises. *)
Lemma comprehension_raises (w : nat -> Session) (it : InputType.t)
    (ms : list Metric) (j0 : nat) (acc : gmap string pyval) j m e :
  ms !! j = Some m ->
  fst (eval (w (j0 + j)%nat) self m checkpoint_path it batch_size aug) = Raised e ->
  exists e', fst (comprehension w self checkpoint_path it batch_size aug ms j0 acc)
             = Raised e'.
Proof.
  revert j0 acc j. induction ms as [|m0 rest IH]; intros j0 acc j Hj He.
  - rewrite lookup_nil in Hj. discriminate.
  - simpl.
    destruct (eval (w j0) self m0 checkpoint_path it batch_size aug) as [[v|e0] l0] eqn:E0.
    + destruct j as [|j].
      * injection Hj as <-. rewrite Nat.add_0_r, E0 in He. discriminate.
      * simpl in Hj. replace (j0 + S j)%nat with (S j0 + j)%nat in He by lia.
        destruct (IH (S j0) (<[name m0 := v]> acc) j Hj He) as [e' He'].
        exists e'. simpl.
        destruct (comprehension w self checkpoint_path it batch_size aug rest
                    (S j0) (<[name m0 := v]> acc)). exact He'.
    + exists e0. reflexivity.
Qed.

(** A comprehension whose calls all return builds the dictionary of their
    values; of two metrics with one name the later one is kept. *)
Lemma comprehension_spec (w : nat -> Session) (it : InputType.t)
    (ms : list Metric) (j0 : nat) (acc : gmap string pyval) :
  (forall j m, ms !! j = Some m ->
     exists v, fst (eval (w (j0 + j)%nat) self m checkpoint_path it batch_size aug)
               = Returned v) ->
  exists d,
    fst (comprehension w self checkpoint_path it batch_size aug ms j0 acc) = Returned d
    /\ dom d = dom acc ∪ list_to_set (name <$> ms)
    /\ (forall j m, ms !! j = Some m ->
          (forall j' m', (j < j')%nat -> ms !! j' = Some m' -> name m' <> name m) ->
          exists v, d !! name m = Some v
            /\ fst (eval (w (j0 + j)%nat) self m checkpoint_path it batch_size aug)
               = Returned v)
    /\ (forall k, k ∉ name <$> ms -> d !! k = acc !! k).
Proof.
  revert j0 acc. induction ms as [|m rest IH]; intros j0 acc Hret.
  - exists acc. simpl. repeat split.
    + symmetry. apply (right_id_L ∅ (∪)).
    + intros j m Hj. rewrite lookup_nil in Hj. discriminate.
  - destruct (Hret 0%nat m eq_refl) as [v0 Hv0].
    destruct (IH (S j0) (<[name m := v0]> acc)) as (d & Hd & Hdom & Hlast & Hother).
    { intros j m' Hj. replace (S j0 + j)%nat with (j0 + S j)%nat by lia.
      apply Hret. exact Hj. }
    exists d. repeat split.
    + simpl. rewrite (fst_bind_Returned _ _ v0); [exact Hd|].
      rewrite Nat.add_0_r in Hv0. exact Hv0.
    + rewrite Hdom, dom_insert_L, fmap_cons, list_to_set_cons.
      rewrite (comm_L (∪) {[name m]} (dom acc)), <- (assoc_L (∪)). reflexivity.
    + intros [|j] m' Hj Hlater.
      * injection Hj as <-. exists v0. split; [|exact Hv0].
        rewrite Hother; [apply lookup_insert_eq|].
        intros Hin. apply list_elem_of_fmap in Hin as (m' & Hname & Hin).
        apply list_elem_of_lookup in Hin as [j' Hj'].
        apply (Hlater (S j') m'); [lia|exact Hj'|congruence].
      * destruct (Hlast j m' Hj) as (v & Hv & Hev).
        { intros j' m'' Hlt Hj'. apply (Hlater (S j') m''); [lia|exact Hj']. }
        exists v. split; [exact Hv|].
        replace (j0 + S j)%nat with (S j0 + j)%nat by lia. exact Hev.
    + intros k Hk. rewrite fmap_cons in Hk.
      apply not_elem_of_cons in Hk as [Hk1 Hk2].
      rewrite Hother by exact Hk2. apply lookup_insert_ne. congruence.
Qed.

(** C6: when every call of [eval] returns, [stats] returns a dictionary
    with exactly the keys "train", "validation" and "test"; under each, the
    keys are the metric names of [metrics], and a name maps to what [eval]
    returned for the metric bearing it (the last one, should a name occur
    twice) on that split, with the same [checkpoint_path], [batch_size] and
    [augmentation_fn].  When a call of [eval] raises, so does [stats]. *)
Theorem stats_maps_names_to_eval (w : InputType.t -> nat -> Session) :
  ((forall it j m, metrics self !! j = Some m ->
      exists v, fst (eval (w it j) self m checkpoint_path it batch_size aug)
                = Returned v) ->
   exists d,
     fst (stats w self checkpoint_path batch_size aug) = Returned d
     /\ dom d = ({["train"; "validation"; "test"]} : gset string)
     /\ forall it, exists inner,
          d !! split_key it = Some inner
          /\ dom inner = list_to_set (name <$> metrics self)
          /\ forall j m, metrics self !! j = Some m ->
               (forall j' m', (j < j')%nat -> metrics self !! j' = Some m' ->
                              name m' <> name m) ->
               exists v, inner !! name m = Some v
                 /\ fst (eval (w it j) self m checkpoint_path it batch_size aug)
                    = Returned v)
  /\ (forall it j m e, metrics self !! j = Some m ->
        fst (eval (w it j) self m checkpoint_path it batch_size aug) = Raised e ->
        exists e', fst (stats w self checkpoint_path batch_size aug) = Raised e').
Proof.
  split.
  - intros Hret.
    destruct (comprehension_spec (w InputType.train) InputType.train (metrics self) 0 ∅)
      as (d1 & E1 & D1 & L1 & _); [intros; apply Hret; assumption|].
    destruct (comprehension_spec (w InputType.validation) InputType.validation
                (metrics self) 0 ∅)
      as (d2 & E2 & D2 & L2 & _); [intros; apply Hret; assumption|].
    destruct (comprehension_spec (w InputType.test) InputType.test (metrics self) 0 ∅)
      as (d3 & E3 & D3 & L3 & _); [intros; apply Hret; assumption|].
    exists (<["test" := d3]> (<["validation" := d2]> (<["train" := d1]> ∅))).
    split; [|split].
    + unfold stats.
      rewrite (fst_bind_Returned _ _ d1 E1), (fst_bind_Returned _ _ d2 E2),
        (fst_bind_Returned _ _ d3 E3). reflexivity.
    + rewrite !dom_insert_L, dom_empty_L. set_solver.
    + intros [ | | ]; simpl.
      * exists d1. split; [by simplify_map_eq|].
        split; [rewrite D1, dom_empty_L; apply (left_id_L ∅ (∪)) | exact L1].
      * exists d2. split; [by simplify_map_eq|].
        split; [rewrite D2, dom_empty_L; apply (left_id_L ∅ (∪)) | exact L2].
      * exists d3. split; [by simplify_map_eq|].
        split; [rewrite D3, dom_empty_L; apply (left_id_L ∅ (∪)) | exact L3].
  - intros it j m e Hj He.
    destruct (comprehension_raises (w it) it (metrics self) 0 ∅ j m e Hj He)
      as [e' He'].
    unfold stats.
    destruct (comprehension (w InputType.train) self checkpoint_path
                InputType.train batch_size aug (metrics self) 0 ∅)
      as [[d1|e1] l1] eqn:E1; [|eexists; reflexivity].
    destruct it; [rewrite E1 in He'; discriminate| |];
      rewrite (fst_bind_Returned (Returned d1, l1) _ d1 eq_refl).
    + rewrite (fst_bind_Raised _ _ _ He'). eauto.
    + destruct (comprehension (w InputType.validation) self checkpoint_path
                  InputType.validation batch_size aug (metrics self) 0 ∅)
        as [[d2|e2] l2] eqn:E2; [|eexists; reflexivity].
      rewrite (fst_bind_Returned (Returned d2, l2) _ d2 eq_refl),
        (fst_bind_Raised _ _ _ He').
      eauto.
Qed.

End Stats.

(** The accuracy is averaged over the three batches, the loss is summed. *)
Lemma stats_maps_names_to_eval_witness :
  exists d,
    fst (stats (fun _ _ => Examples.steady)
           (Examples.evaluator Examples.lenet (Examples.mnist 10)) "log" 4 None)
    = Returned d
    /\ dom d = ({["train"; "validation"; "test"]} : gset string)
    /\ forall it, exists inner,
         d !! split_key it = Some inner
         /\ dom inner = ({["accuracy"; "loss"]} : gset string)
         /\ inner !! "accuracy" = Some (PyFloat 2%float)
         /\ inner !! "loss" = Some (PyFloat 6%float).
Proof.
  destruct (proj1 (stats_maps_names_to_eval
                     (Examples.evaluator Examples.lenet (Examples.mnist 10)) "log" 4 None
                     (fun _ _ => Examples.steady))) as (d & Hd & Hdom & Hin).
  - intros it [|[|j]] m [= <-]; eexists; reflexivity.
  - exists d. split; [exact Hd|]. split; [exact Hdom|].
    intros it. destruct (Hin it) as (inner & Hk & Hnames & Hval).
    exists inner. split; [exact Hk|]. split.
    + rewrite Hnames. simpl. set_solver.
    + split.
      * destruct (Hval 0%nat Examples.accuracy_metric eq_refl) as (v & Hv & Hev).
        { intros [|[|j']] m' Hlt [= <-]; [lia|discriminate]. }
        simpl in Hv. rewrite Hv. vm_compute in Hev. congruence.
      * destruct (Hval 1%nat Examples.loss_metric eq_refl) as (v & Hv & Hev).
        { intros [|[|j']] m' Hlt [= <-]; lia. }
        simpl in Hv. rewrite Hv. vm_compute in Hev. congruence.
Defined.

End EvaluatorFacts.

(** ** Facts about the training script *)

Module TrainFacts.
Import Train.

(** *** The best value of a series of evaluations *)

Section BestOf.
Variable lt : float -> float -> bool.
Hypothesis lt_irrefl : forall a, lt a a = false.
Hypothesis lt_trans : forall a b c, lt a b = true -> lt b c = true -> lt a c = true.

Lemma best_of_app (start : float) (e1 e2 : list (Z * float)) :
  best_of lt start (e1 ++ e2) = best_of lt (best_of lt start e1) e2.
Proof. apply fold_left_app. Qed.

Lemma improvements_app (start : float) (e1 e2 : list (Z * float)) :
  improvements lt start (e1 ++ e2)
  = improvements lt start e1 ++ improvements lt (best_of lt start e1) e2.
Proof.
  revert start. induction e1 as [|[step v] e1 IH]; intros start; simpl; [reflexivity|].
  destruct (lt start v); simpl; rewrite IH; reflexivity.
Qed.





End BestOf.

Lemma higher_irrefl a : higher a a = false.
Proof. apply PyFloatFacts.ltb_irrefl. Qed.

Lemma higher_trans a b c : higher a b = true -> higher b c = true -> higher a c = true.
Proof. apply PyFloatFacts.ltb_trans. Qed.

Lemma lower_irrefl a : lower a a = false.
Proof. apply PyFloatFacts.ltb_irrefl. Qed.

Lemma lower_trans a b c : lower a b = true -> lower b c = true -> lower a c = true.
Proof. unfold lower. intros H1 H2. exact (PyFloatFacts.ltb_trans _ _ _ H2 H1). Qed.



(** *** The loop bodies and the loop *)

Lemma evaluations_app l1 l2 : evaluations (l1 ++ l2) = evaluations l1 ++ evaluations l2.
Proof. apply omap_app. Qed.

Lemma saved_best_app l1 l2 : saved_best (l1 ++ l2) = saved_best l1 ++ saved_best l2.
Proof. apply omap_app. Qed.

Ltac step_cases H :=
  unfold eval_model, epoch_end, epoch_number, raise in H;
  repeat case_match; simplify_eq; simpl;
  unfold higher, lower in *;
  repeat match goal with E : (_ <? _)%float = _ |- _ => rewrite E end;
  auto.

(** One pass of the classifier's loop: the best is replaced, and the best
    model saved, exactly when the new accuracy is higher. *)
Lemma classifier_step_spec g w step best f l :
  classifier_step g w step best = (f, l) ->
  match f with
  | Continue b =>
      b = best_of higher best (evaluations l)
      /\ saved_best l = improvements higher best (evaluations l)
  | Break b => b = best /\ evaluations l = [] /\ saved_best l = []
  | Throw _ => True
  end.
Proof. intros H. unfold classifier_step in H. step_cases H. Qed.

Lemma autoencoder_step_spec g w step best f l :
  autoencoder_step g w step best = (f, l) ->
  match f with
  | Continue b =>
      b = best_of lower best (evaluations l)
      /\ saved_best l = improvements lower best (evaluations l)
  | Break b => b = best /\ evaluations l = [] /\ saved_best l = []
  | Throw _ => True
  end.
Proof. intros H. unfold autoencoder_step in H. step_cases H. Qed.

Lemma restore_previous_quiet g w :
  evaluations (restore_previous g w) = [] /\ saved_best (restore_previous g w) = [].
Proof. unfold restore_previous. repeat case_match; auto. Qed.

Section Loop.
Variable better : float -> float -> bool.
Variable body : Z -> float -> flow * list event.
Hypothesis body_spec : forall step best f l,
  body step best = (f, l) ->
  match f with
  | Continue b =>
      b = best_of better best (evaluations l)
      /\ saved_best l = improvements better best (evaluations l)
  | Break b => b = best /\ evaluations l = [] /\ saved_best l = []
  | Throw _ => True
  end.

(** The loop keeps the running best of the evaluations it logs, and saves
    the best model at their improvements. *)
Lemma for_loop_spec steps best f l :
  for_loop body steps best = (f, l) ->
  match f with
  | Continue b | Break b =>
      b = best_of better best (evaluations l)
      /\ saved_best l = improvements better best (evaluations l)
  | Throw _ => True
  end.
Proof.
  revert best f l. induction steps as [|step rest IH]; intros best f l; simpl.
  - intros [= <- <-]. auto.
  - destruct (body step best) as [f1 l1] eqn:E1.
    pose proof (body_spec _ _ _ _ E1) as S1.
    destruct f1 as [b1|b1|e1].
    + destruct (for_loop body rest b1) as [f2 l2] eqn:E2. intros [= <- <-].
      pose proof (IH _ _ _ E2) as S2. destruct S1 as [-> S1s].
      rewrite evaluations_app, saved_best_app, best_of_app, improvements_app.
      destruct f2; auto; destruct S2 as [-> ->]; rewrite S1s; auto.
    + intros [= <- <-]. destruct S1 as (-> & -> & ->). auto.
    + intros [= <- <-]. exact I.
Qed.

Lemma training_spec g w best r l :
  training g w body best = (Returned r, l) ->
  r = best_of better best (evaluations l)
  /\ saved_best l = improvements better best (evaluations l).
Proof.
  unfold training.
  destruct (for_loop body (range (old_gs w) (MAX_STEPS g)) best) as [f l'] eqn:E.
  pose proof (for_loop_spec _ _ _ _ E) as S.
  destruct (restore_previous_quiet g w) as [Q1 Q2].
  destruct f; intros [= <- <-];
    rewrite !evaluations_app, !saved_best_app, Q1, Q2; simpl;
    rewrite !app_nil_r; exact S.
Qed.

Lemma for_loop_app s1 s2 best :
  for_loop body (s1 ++ s2) best
  = match for_loop body s1 best with
    | (Continue b, l) => let (f, l') := for_loop body s2 b in (f, l ++ l')
    | r => r
    end.
Proof.
  revert best. induction s1 as [|step s1 IH]; intros best; simpl.
  - destruct (for_loop body s2 best). reflexivity.
  - destruct (body step best) as [[b1|b1|e1] l1]; try reflexivity.
    rewrite IH. destruct (for_loop body s1 b1) as [[b2|b2|e2] l2]; try reflexivity.
    destruct (for_loop body s2 b2). rewrite app_assoc. reflexivity.
Qed.

End Loop.

Lemma range_split a k b : a <= k < b -> range a b = range a k ++ k :: range (k + 1) b.
Proof.
  intros H. unfold range.
  replace (b - a) with ((k - a) + (b - k)) by lia.
  rewrite seqZ_app by lia. f_equal.
  replace (a + (k - a)) with k by lia.
  rewrite seqZ_cons by lia. f_equal. f_equal; lia.
Qed.



Lemma for_loop_continues body steps best :
  (forall step b, In step steps -> exists b' l, body step b = (Continue b', l)) ->
  exists b' l, for_loop body steps best = (Continue b', l).
Proof.
  revert best. induction steps as [|step rest IH]; intros best H; simpl; [eauto|].
  destruct (H step best (or_introl eq_refl)) as (b1 & l1 & ->).
  destruct (IH b1) as (b2 & l2 & ->); [intros; apply H; right; assumption|].
  eauto.
Qed.

Lemma classifier_step_continues g w step b :
  is_nan (loss w step) = false ->
  is_Classifier (MODEL g) = true -> STEPS_PER_EPOCH g <> 0 ->
  exists b' l, classifier_step g w step b = (Continue b', l).
Proof.
  intros Hn Hc Hs. apply Z.eqb_neq in Hs.
  unfold classifier_step, eval_model, epoch_end, epoch_number, raise.
  rewrite Hn, Hc, Hs. repeat case_match; simplify_eq; eauto.
Qed.

Lemma autoencoder_step_continues g w step b :
  is_nan (loss w step) = false ->
  is_Classifier (MODEL g) || is_Autoencoder (MODEL g) = true ->
  STEPS_PER_EPOCH g <> 0 ->
  exists b' l, autoencoder_step g w step b = (Continue b', l).
Proof.
  intros Hn Hc Hs. apply Z.eqb_neq in Hs.
  unfold autoencoder_step, eval_model, epoch_end, epoch_number, raise.
  rewrite Hn, Hs.
  destruct (is_Classifier (MODEL g)), (is_Autoencoder (MODEL g)); try discriminate;
    repeat case_match; simplify_eq; eauto.
Qed.

Lemma in_range j a b : In j (range a b) -> a <= j < b.
Proof. unfold range. rewrite <- list_elem_of_In, elem_of_seqZ. lia. Qed.

(** C5: in both training loops, a NaN loss at a step the loop reaches ends
    the loop at that step: the message is printed, nothing of the later
    steps happens, and the function returns the best validation value
    recorded before that step.  The loop reaches the step when no earlier
    loss is NaN, the model is of a kind [eval_model] knows and
    [STEPS_PER_EPOCH] is not zero. *)
Theorem nan_loss_ends_training (g : Globals) (w : World) (k : Z) :
  old_gs w <= k < MAX_STEPS g ->
  is_nan (loss w k) = true ->
  (forall b l,
     for_loop (classifier_step g w) (range (old_gs w) k) 0%float = (Continue b, l) ->
     classifier g w
     = (Returned b,
        restore_previous g w ++ (l ++ [Printed "Model diverged with loss = NaN"])
        ++ [RequestStop None; Join])
     /\ b = best_of higher 0 (evaluations l))
  /\ (forall b l,
     for_loop (autoencoder_step g w) (range (old_gs w) k) infinity = (Continue b, l) ->
     autoencoder g w
     = (Returned b,
        restore_previous g w ++ (l ++ [Printed "Model diverged with loss = NaN"])
        ++ [RequestStop None; Join])
     /\ b = best_of lower infinity (evaluations l))
  /\ ((forall j, old_gs w <= j < k -> is_nan (loss w j) = false) ->
      STEPS_PER_EPOCH g <> 0 ->
      (is_Classifier (MODEL g) = true ->
       exists b l, for_loop (classifier_step g w) (range (old_gs w) k) 0%float
                   = (Continue b, l))
      /\ (is_Classifier (MODEL g) || is_Autoencoder (MODEL g) = true ->
          exists b l, for_loop (autoencoder_step g w) (range (old_gs w) k) infinity
                      = (Continue b, l))).
Proof.
  intros Hk Hnan. split; [|split].
  - intros b l H. split.
    + unfold classifier, training.
      rewrite (range_split _ k _ Hk), for_loop_app, H. simpl.
      unfold classifier_step at 1. rewrite Hnan. reflexivity.
    + exact (proj1 (for_loop_spec higher _ (classifier_step_spec g w) _ _ _ _ H)).
  - intros b l H. split.
    + unfold autoencoder, training.
      rewrite (range_split _ k _ Hk), for_loop_app, H. simpl.
      unfold autoencoder_step at 1. rewrite Hnan. reflexivity.
    + exact (proj1 (for_loop_spec lower _ (autoencoder_step_spec g w) _ _ _ _ H)).
  - intros Hbefore Hs. split; intros Hc; apply for_loop_continues; intros step b Hin;
      apply in_range in Hin.
    + apply classifier_step_continues; auto.
    + apply autoencoder_step_continues; auto.
Qed.

(** The loss is NaN at step 4: the accuracy 0.25 of step 3 is returned. *)
Lemma nan_loss_ends_training_witness :
  classifier (TrainExamples.globals TrainExamples.a_classifier) TrainExamples.diverging
  = (Returned 0.25%float,
     [Printed "[I] Unable to restore from checkpoint";
      LogStep 0 1;
      SaveTrain "/home/u/dtb/log/LeNet/run1" 3;
      Evaluated accuracy "/home/u/dtb/log/LeNet/run1" InputType.validation;
      ValidationSummary 3 0.25; TrainSummary 3 0.5; PrintEpoch 1 0.5 0.25;
      SaveBest "/home/u/dtb/log/LeNet/run1/best" 3;
      Printed "Model diverged with loss = NaN";
      RequestStop None; Join]).
Proof.
  refine (proj1 (proj1 (nan_loss_ends_training
                   (TrainExamples.globals TrainExamples.a_classifier)
                   TrainExamples.diverging 4 _ eq_refl) 0.25%float _ eq_refl)).
  simpl. lia.
Defined.

(** C10: [eval_model] raises [ValueError], and calls no evaluation, for an
    [input_type] that is not an [InputType] and for a [MODEL] that is
    neither a Classifier nor an Autoencoder; for such a [MODEL], [train()]
    raises [ValueError] as well. *)
Theorem unknown_input_type_or_model_raises :
  (forall g ev checkpoint_dir repr,
     eval_model g ev checkpoint_dir (OtherObject repr)
     = (Raised (ValueError "Invalid input_type, required a valid InputType"), []))
  /\ (forall g ev checkpoint_dir input_type,
       is_Classifier (MODEL g) = false -> is_Autoencoder (MODEL g) = false ->
       exists msg,
         eval_model g ev checkpoint_dir input_type = (Raised (ValueError msg), []))
  /\ (forall g w,
       is_Classifier (MODEL g) = false -> is_Autoencoder (MODEL g) = false ->
       train g w
       = (Raised (ValueError "train method not defined for this model type"), [])).
Proof.
  split; [reflexivity|]. split.
  - intros g ev dir [it|repr] Hc Ha; unfold eval_model; [rewrite Hc, Ha|]; eauto.
  - intros g w Hc Ha. unfold train. rewrite Hc, Ha. reflexivity.
Qed.

(** A model that is neither a classifier nor an autoencoder. *)
Lemma unknown_input_type_or_model_raises_witness :
  (exists msg,
     eval_model (TrainExamples.globals TrainExamples.something_else)
       (fun _ _ _ => 0%float) "log" (InputTypeObject InputType.test)
     = (Raised (ValueError msg), []))
  /\ train (TrainExamples.globals TrainExamples.something_else) TrainExamples.improving
     = (Raised (ValueError "train method not defined for this model type"), []).
Proof.
  split.
  - exact (proj1 (proj2 unknown_input_type_or_model_raises)
             (TrainExamples.globals TrainExamples.something_else)
             (fun _ _ _ => 0%float) "log" (InputTypeObject InputType.test)
             eq_refl eq_refl).
  - exact (proj2 (proj2 unknown_input_type_or_model_raises)
             (TrainExamples.globals TrainExamples.something_else)
             TrainExamples.improving eq_refl eq_refl).
Defined.

(** *** The result files *)

Lemma newlines_app (a b : string) : newlines (a +:+ b) = (newlines a + newlines b)%nat.
Proof. induction a as [|c a IH]; simpl; [reflexivity|]. rewrite IH. lia. Qed.

(** A result line ends the one line it writes: it has one line end more
    than its four fields. *)
Lemma newlines_result_line (now model NAME value : string) :
  newlines (result_line now model NAME value)
  = (newlines now + newlines model + newlines NAME + newlines value + 1)%nat.
Proof. unfold result_line. rewrite !newlines_app. simpl. lia. Qed.

Lemma result_files_differ (g : Globals) : validation_results g <> test_results g.
Proof.
  unfold validation_results, test_results, path_join. simpl.
  destruct (_ || _)%bool; intros H; apply String.app_inj in H; discriminate.
Qed.

(** C7: once [train()] has returned, the script appends one result line
    (time, model, name, best validation value, line end) to
    [validation_results.txt] and one (with the evaluation of the best model
    on the test split) to [test_results.txt]; what the two files held
    before stays in front, and no other file changes. *)
Theorem results_appended_once (g : Globals) (sw : ScriptWorld) (fs : Files)
    (VALIDATION_METRIC : float) (l : list event) :
  train g (run sw) = (Returned VALIDATION_METRIC, l) ->
  exists test_value l' fs',
    eval_model g (final_evaluate sw) (BEST_MODEL_DIR g) (InputTypeObject InputType.test)
    = (Returned test_value, l')
    /\ main g sw fs = ((Returned tt, l ++ l'), fs')
    /\ fs' !! validation_results g
       = Some (default "" (fs !! validation_results g)
               +:+ result_line (now_validation sw) (model (ARGS g)) (NAME g)
                     (format_float sw VALIDATION_METRIC))
    /\ fs' !! test_results g
       = Some (default "" (fs !! test_results g)
               +:+ result_line (now_test sw) (model (ARGS g)) (NAME g)
                     (format_float sw test_value))
    /\ (forall path, path <> validation_results g -> path <> test_results g ->
          fs' !! path = fs !! path)
    /\ newlines (result_line (now_validation sw) (model (ARGS g)) (NAME g)
                   (format_float sw VALIDATION_METRIC))
       = (newlines (now_validation sw) + newlines (model (ARGS g)) + newlines (NAME g)
          + newlines (format_float sw VALIDATION_METRIC) + 1)%nat
    /\ newlines (result_line (now_test sw) (model (ARGS g)) (NAME g)
                   (format_float sw test_value))
       = (newlines (now_test sw) + newlines (model (ARGS g)) + newlines (NAME g)
          + newlines (format_float sw test_value) + 1)%nat.
Proof.
  intros Htrain.
  pose proof (result_files_differ g) as Hne.
  assert (Hev : exists test_value l',
             eval_model g (final_evaluate sw) (BEST_MODEL_DIR g)
               (InputTypeObject InputType.test) = (Returned test_value, l')).
  { unfold train in Htrain. unfold eval_model.
    destruct (is_Classifier (MODEL g)); [eauto|].
    destruct (is_Autoencoder (MODEL g)); [eauto|discriminate]. }
  destruct Hev as (test_value & l' & Hev).
  exists test_value, l'. eexists. split; [exact Hev|].
  split; [unfold main; rewrite Htrain, Hev; reflexivity|].
  unfold append. split; [|split; [|split; [|split]]].
  - rewrite lookup_insert_ne by congruence. apply lookup_insert_eq.
  - rewrite lookup_insert_eq, lookup_insert_ne by congruence. reflexivity.
  - intros path H1 H2. rewrite !lookup_insert_ne by congruence. reflexivity.
  - apply newlines_result_line.
  - apply newlines_result_line.
Qed.

(** The validation file keeps the line of the earlier run and gains one;
    the test file is created with one line. *)
Lemma results_appended_once_witness :
  exists fs',
    snd (main (TrainExamples.globals TrainExamples.a_classifier)
           TrainExamples.script TrainExamples.earlier) = fs'
    /\ fs' !! "/home/u/dtb/validation_results.txt"
       = Some ("2017-02-28 09:00:00.000001 LeNet: run0 0.5" +:+ LF
               +:+ "2017-03-01 10:00:00.000001 LeNet: run1 0.75" +:+ LF)
    /\ fs' !! "/home/u/dtb/test_results.txt"
       = Some ("2017-03-01 10:05:00.000002 LeNet: run1 0.5" +:+ LF).
Proof.
  destruct (results_appended_once (TrainExamples.globals TrainExamples.a_classifier)
              TrainExamples.script TrainExamples.earlier 0.75%float
              (snd (train (TrainExamples.globals TrainExamples.a_classifier)
                      TrainExamples.improving)) eq_refl)
    as (test_value & l' & fs' & Hev & Hmain & Hv & Ht & _).
  exists fs'. split; [rewrite Hmain; reflexivity|].
  injection Hev as <- _.
  split; [exact Hv|exact Ht].
Defined.

End TrainFacts.

(** ** Further facts about the evaluator *)

Module EvaluatorEdges.
Import Evaluator.

(** The loop runs the batches [step + 1 .. step + k], where [k] is the
    first poll at which the coordinator says stop, or all that remain. *)
Lemma while_loop_spec (s : Session) (remaining step : nat) (sum : float) :
  exists k,
    (k <= remaining)%nat
    /\ (forall j, (step <= j < step + k)%nat -> should_stop s j = false)
    /\ ((k < remaining)%nat -> should_stop s (step + k)%nat = true)
    /\ while_loop s remaining step sum
       = ((step + k)%nat,
          fold_left PrimFloat.add (map (run s) (seq (S step) k)) sum,
          map RunBatch (seq (S step) k)).
Proof.
  revert step sum. induction remaining as [|r IH]; intros step sum.
  - exists 0%nat. simpl. rewrite Nat.add_0_r. repeat split; intros; lia.
  - simpl. destruct (should_stop s step) eqn:E.
    + exists 0%nat. simpl. rewrite Nat.add_0_r. repeat split; intros; [lia|lia|auto].
    + destruct (IH (S step) (sum + run s (S step))%float) as (k & Hk & Hno & Hstop & ->).
      exists (S k). split; [lia|]. split; [|split].
      * intros j Hj. destruct (Nat.eq_dec j step) as [->|]; [exact E|].
        apply Hno. lia.
      * intros Hlt. replace (step + S k)%nat with (S step + k)%nat by lia.
        apply Hstop. lia.
      * replace (S step + k)%nat with (step + S k)%nat by lia. reflexivity.
Qed.

(** X1: once the [try] is reached with [batch_size > 0], [eval] runs the
    batches 1 to [k], where [k] is the first loop test at which the
    coordinator says stop ([num_iter] if it never does): never more than
    [num_iter], numbered in order.  It returns the sum of these [k] values
    for a summed metric, their mean (divided by [k], not by [num_iter]) for
    an averaged one, and raises for an averaged one when [k = 0]; in every
    case the coordinator is asked to stop and joined. *)
Theorem eval_over_the_batches_run
    (s : Session) (self : t) (ds : Dataset) (md : Model) (metric : Metric)
    (checkpoint_path path : string) (input_type : InputType.t) (batch_size : Z)
    (aug : option augmentation) (n : Z) :
  dataset self = Some ds -> model self = Some md ->
  get md (num_classes ds) false = inputs ds input_type batch_size aug ->
  checkpoint_found s checkpoint_path = Some path ->
  0 < batch_size ->
  (n - 1) * batch_size < num_examples ds input_type <= n * batch_size ->
  exists k : nat,
    Z.of_nat k <= Z.max 0 n
    /\ (forall j, (j < k)%nat -> should_stop s j = false)
    /\ (Z.of_nat k < n -> should_stop s k = true)
    /\ eval s self metric checkpoint_path input_type batch_size aug
       = if average metric && (k =? 0)%nat then
           (Raised (if join_reraises s then ZeroDivisionError
                    else UnboundLocalError "avg_metric_value"),
            [Restored path; RequestStop (Some ZeroDivisionError);
             RequestStop None; Join])
         else
           (Returned (PyFloat (if average metric
                               then PyFloat.mean (map (run s) (seq 1 k))
                               else PyFloat.sum (map (run s) (seq 1 k)))),
            Restored path :: map RunBatch (seq 1 k) ++ [RequestStop None; Join]).
Proof.
  intros Hds Hmd Hcard Hck Hb Hn.
  rewrite (EvaluatorFacts.eval_reaches_try s self ds md metric checkpoint_path path)
    by assumption.
  unfold try_body. rewrite (EvaluatorFacts.num_iter_ceiling _ _ n Hb Hn).
  destruct (while_loop_spec s (Z.to_nat n) 0 0%float) as (k & Hk & Hno & Hstop & ->).
  exists k. split; [lia|]. split; [intros j Hj; apply Hno; lia|].
  split; [intros Hlt; apply (Hstop ltac:(lia))|].
  simpl Nat.add.
  change (fold_left PrimFloat.add (map (run s) (seq 1 k)) 0%float)
    with (PyFloat.sum (map (run s) (seq 1 k))).
  destruct (average metric); [|reflexivity].
  destruct k as [|k]; [reflexivity|]. simpl andb. cbv iota.
  unfold PyFloat.mean. rewrite length_map, length_seq. reflexivity.
Qed.

(** Two batches run before the stop: the mean is (1 + 2) / 2. *)
Lemma eval_over_the_batches_run_witness :
  exists k : nat,
    Z.of_nat k <= 3
    /\ Evaluator.eval MoreExamples.interrupted
         (Examples.evaluator Examples.lenet (Examples.mnist 10))
         Examples.accuracy_metric "log" InputType.test 4 None
       = (Returned (PyFloat 1.5%float),
          [Restored "log/model.ckpt-10"; RunBatch 1; RunBatch 2;
           RequestStop None; Join]).
Proof.
  destruct (eval_over_the_batches_run MoreExamples.interrupted
              (Examples.evaluator Examples.lenet (Examples.mnist 10))
              (Examples.mnist 10) Examples.lenet Examples.accuracy_metric
              "log" "log/model.ckpt-10" InputType.test 4 None 3
              eq_refl eq_refl eq_refl eq_refl eq_refl)
    as (k & Hk & Hno & Hstop & _).
  - simpl. lia.
  - exists k. split; [exact Hk|]. reflexivity.
Defined.

(** X2: an evaluator whose dataset was never set cannot evaluate: [eval]
    raises [AttributeError] before anything is printed, restored or run,
    and so does [stats], unless [metrics] is empty, in which case [stats]
    calls nothing and returns three empty dictionaries. *)
Theorem stats_without_dataset (w : InputType.t -> nat -> Session) (self : t)
    (checkpoint_path : string) (batch_size : Z) (aug : option augmentation) :
  dataset self = None ->
  (forall s metric input_type,
     eval s self metric checkpoint_path input_type batch_size aug
     = (Raised (AttributeError "inputs"), []))
  /\ (metrics self = [] ->
      stats w self checkpoint_path batch_size aug
      = (Returned (<["test" := ∅]> (<["validation" := ∅]> (<["train" := ∅]> ∅))), []))
  /\ (metrics self <> [] ->
      stats w self checkpoint_path batch_size aug
      = (Raised (AttributeError "inputs"), [])).
Proof.
  intros Hds.
  assert (E : forall s metric input_type,
             eval s self metric checkpoint_path input_type batch_size aug
             = (Raised (AttributeError "inputs"), [])).
  { intros. unfold eval. rewrite Hds. reflexivity. }
  split; [exact E|]. split.
  - intros Hm. unfold stats. rewrite Hm. reflexivity.
  - intros Hm. unfold stats. destruct (metrics self) as [|m ms]; [contradiction|].
    simpl. rewrite E. reflexivity.
Qed.

(** A fresh evaluator of two metrics. *)
Lemma stats_without_dataset_witness :
  stats (fun _ _ => Examples.steady)
    (__init__ [Examples.accuracy_metric; Examples.loss_metric]) "log" 4 None
  = (Raised (AttributeError "inputs"), []).
Proof.
  refine (proj2 (proj2 (stats_without_dataset (fun _ _ => Examples.steady)
                          (__init__ [Examples.accuracy_metric; Examples.loss_metric])
                          "log" 4 None eq_refl)) _).
  discriminate.
Defined.

(** X3: with [batch_size = 0] and a checkpoint restored, the division that
    computes [num_iter] fails inside the [try]: no batch is run and [eval]
    returns no value, for a summed metric as for an averaged one. *)
Theorem eval_batch_size_zero
    (s : Session) (self : t) (ds : Dataset) (md : Model) (metric : Metric)
    (checkpoint_path path : string) (input_type : InputType.t)
    (aug : option augmentation) :
  dataset self = Some ds -> model self = Some md ->
  get md (num_classes ds) false = inputs ds input_type 0 aug ->
  checkpoint_found s checkpoint_path = Some path ->
  eval s self metric checkpoint_path input_type 0 aug
  = (Raised (if join_reraises s then ZeroDivisionError
             else UnboundLocalError "avg_metric_value"),
     [Restored path; RequestStop (Some ZeroDivisionError); RequestStop None; Join]).
Proof.
  intros Hds Hmd Hcard Hck.
  rewrite (EvaluatorFacts.eval_reaches_try s self ds md metric checkpoint_path path)
    by assumption.
  reflexivity.
Qed.

Lemma eval_batch_size_zero_witness :
  Evaluator.eval Examples.steady (Examples.evaluator Examples.lenet (Examples.mnist 10))
    Examples.loss_metric "log" InputType.test 0 None
  = (Raised (UnboundLocalError "avg_metric_value"),
     [Restored "log/model.ckpt-10"; RequestStop (Some ZeroDivisionError);
      RequestStop None; Join]).
Proof.
  exact (eval_batch_size_zero Examples.steady
           (Examples.evaluator Examples.lenet (Examples.mnist 10))
           (Examples.mnist 10) Examples.lenet Examples.loss_metric
           "log" "log/model.ckpt-10" InputType.test None
           eq_refl eq_refl eq_refl eq_refl).
Defined.

(** Every number is at least [-inf]. *)
Lemma leb_neg_infinity (a : float) : is_nan a = false -> (neg_infinity <=? a)%float = true.
Proof.
  intros Ha. rewrite leb_spec.
  assert (Hn : Prim2SF a <> S754_nan).
  { intros E. apply PyFloatFacts.is_nan_SF in E. congruence. }
  change (Prim2SF neg_infinity) with (S754_infinity true).
  destruct (Prim2SF a) as [z|i| |z m e]; try reflexivity; [|congruence].
  destruct i; reflexivity.
Qed.

(** X4: the value [eval] returns when it finds no checkpoint is never
    better than a real evaluation: where a negative trend is liked (lower
    is better) every number is at most it, otherwise every number is at
    least it. *)
Theorem no_checkpoint_value_is_worst (metric : Metric) (v : float) :
  is_nan v = false ->
  if get_sign (positive_trend_sign metric)
  then (v <=? no_checkpoint_value metric)%float = true
  else (no_checkpoint_value metric <=? v)%float = true.
Proof.
  intros Hv. unfold no_checkpoint_value.
  rewrite PyFloatFacts.copysign_one_neg.
  destruct (get_sign (positive_trend_sign metric)).
  - apply PyFloatFacts.leb_infinity, Hv.
  - apply leb_neg_infinity, Hv.
Qed.

Lemma no_checkpoint_value_is_worst_witness :
  (no_checkpoint_value Examples.accuracy_metric <=? 0.5)%float = true
  /\ (0.5 <=? no_checkpoint_value Examples.loss_metric)%float = true.
Proof.
  split.
  - exact (no_checkpoint_value_is_worst Examples.accuracy_metric 0.5%float eq_refl).
  - exact (no_checkpoint_value_is_worst Examples.loss_metric 0.5%float eq_refl).
Defined.

(** A set built from a list has as many elements as the list exactly when
    the list has no element twice. *)
Lemma size_list_to_set_le (l : list string) :
  (size (list_to_set l : gset string) <= length l)%nat
  /\ (size (list_to_set l : gset string) = length l <-> NoDup l).
Proof.
  induction l as [|x l [IHle IHeq]]; simpl.
  - split; [reflexivity|]. split; [constructor|reflexivity].
  - destruct (decide (x ∈ l)) as [Hin|Hnin].
    + assert (E : ({[x]} ∪ list_to_set l : gset string) = list_to_set l).
      { apply subseteq_union_1_L. apply singleton_subseteq_l.
        apply elem_of_list_to_set. exact Hin. }
      rewrite E. split; [lia|]. split; [lia|].
      intros Hnd. apply NoDup_cons in Hnd as [Hnin _]. contradiction.
    + rewrite size_union, size_singleton.
      * split; [lia|]. rewrite NoDup_cons. split.
        -- intros H. split; [exact Hnin|]. apply IHeq. lia.
        -- intros [_ H]. apply IHeq in H. lia.
      * apply disjoint_singleton_l. rewrite elem_of_list_to_set. exact Hnin.
Qed.

(** X5: when every call of [eval] returns, each split's dictionary of
    [stats] has at most one entry per metric, and exactly one per metric
    if and only if the metric names are pairwise distinct: of metrics that
    share a name all results but one are lost. *)
Theorem stats_entries_per_split (w : InputType.t -> nat -> Session) (self : t)
    (checkpoint_path : string) (batch_size : Z) (aug : option augmentation) :
  (forall it j m, metrics self !! j = Some m ->
     exists v, fst (eval (w it j) self m checkpoint_path it batch_size aug)
               = Returned v) ->
  exists d,
    fst (stats w self checkpoint_path batch_size aug) = Returned d
    /\ forall it, exists inner,
         d !! split_key it = Some inner
         /\ (size inner <= length (metrics self))%nat
         /\ (size inner = length (metrics self) <-> NoDup (name <$> metrics self)).
Proof.
  intros Hret.
  assert (Hsplit : forall it, exists inner,
             fst (comprehension (w it) self checkpoint_path it batch_size aug
                    (metrics self) 0 ∅) = Returned inner
             /\ (size inner <= length (metrics self))%nat
             /\ (size inner = length (metrics self) <-> NoDup (name <$> metrics self))).
  { intros it.
    destruct (EvaluatorFacts.comprehension_spec self checkpoint_path batch_size aug
                (w it) it (metrics self) 0 ∅)
      as (inner & E & D & _); [intros; apply Hret; assumption|].
    exists inner. split; [exact E|].
    rewrite <- (size_dom (D := gset string)), D, dom_empty_L, (left_id_L ∅ (∪)).
    rewrite <- (length_fmap name (metrics self)).
    apply size_list_to_set_le. }
  destruct (Hsplit InputType.train) as (d1 & E1 & S1).
  destruct (Hsplit InputType.validation) as (d2 & E2 & S2).
  destruct (Hsplit InputType.test) as (d3 & E3 & S3).
  exists (<["test" := d3]> (<["validation" := d2]> (<["train" := d1]> ∅))).
  split.
  - unfold stats.
    rewrite (EvaluatorFacts.fst_bind_Returned _ _ d1 E1),
      (EvaluatorFacts.fst_bind_Returned _ _ d2 E2),
      (EvaluatorFacts.fst_bind_Returned _ _ d3 E3). reflexivity.
  - intros [ | | ]; simpl.
    + exists d1. split; [by simplify_map_eq|exact S1].
    + exists d2. split; [by simplify_map_eq|exact S2].
    + exists d3. split; [by simplify_map_eq|exact S3].
Qed.

(** Two metrics named "accuracy": one entry per split. *)
Lemma stats_entries_per_split_witness :
  exists d,
    fst (stats (fun _ _ => Examples.steady) MoreExamples.homonyms "log" 4 None)
    = Returned d
    /\ forall it, exists inner,
         d !! split_key it = Some inner /\ (size inner < 2)%nat.
Proof.
  destruct (stats_entries_per_split (fun _ _ => Examples.steady)
              MoreExamples.homonyms "log" 4 None) as (d & Hd & Hin).
  - intros it [|[|j]] m [= <-]; eexists; reflexivity.
  - exists d. split; [exact Hd|]. intros it.
    destruct (Hin it) as (inner & Hk & Hle & Hiff).
    exists inner. split; [exact Hk|].
    destruct (Nat.eq_dec (size inner) 2%nat) as [E|]; [|simpl in Hle; lia].
    apply Hiff in E. simpl in E. apply NoDup_cons in E as [Hnin _].
    exfalso. apply Hnin. left.
Defined.

End EvaluatorEdges.

(** ** Further facts about the training script *)

Module TrainEdges.
Import Train Script.

(** *** What a training touches *)

Lemma for_loop_log (P : event -> Prop) body steps best :
  (forall step b, Forall P (snd (body step b))) ->
  Forall P (snd (for_loop body steps best)).
Proof.
  intros Hbody. revert best. induction steps as [|step rest IH]; intros best; simpl.
  - constructor.
  - specialize (Hbody step best).
    destruct (body step best) as [[b1|b1|e1] l1]; simpl in *; try exact Hbody.
    specialize (IH b1). destruct (for_loop body rest b1) as [f2 l2]. simpl in *.
    apply Forall_app. split; assumption.
Qed.

Lemma training_log (P : event -> Prop) g w body best :
  Forall P (restore_previous g w) ->
  (forall step b, Forall P (snd (body step b))) ->
  P (RequestStop None) -> P Join ->
  Forall P (snd (training g w body best)).
Proof.
  intros Hpre Hbody Hstop Hjoin. unfold training.
  pose proof (for_loop_log P body (range (old_gs w) (MAX_STEPS g)) best Hbody) as H.
  destruct (for_loop body (range (old_gs w) (MAX_STEPS g)) best) as [[b|b|e] l];
    simpl in *; repeat (apply Forall_app; split); auto.
Qed.

Lemma restore_previous_in_place g w : Forall (in_place g w) (restore_previous g w).
Proof.
  unfold restore_previous. destruct (restart (ARGS g)) eqn:E; [constructor|].
  destruct (latest_checkpoint w (LOG_DIR g)) as [[|c p]|] eqn:E';
    repeat constructor; auto.
Qed.

Ltac in_place_cases :=
  unfold eval_model, epoch_end, epoch_number, raise;
  repeat case_match; simplify_eq; simpl;
  repeat (apply Forall_cons; split); try apply Forall_nil; simpl;
  repeat match goal with H : is_Classifier _ = _ |- _ => rewrite H end;
  auto.

Lemma classifier_step_in_place g w step b :
  Forall (in_place g w) (snd (classifier_step g w step b)).
Proof. unfold classifier_step. in_place_cases. Qed.

Lemma autoencoder_step_in_place g w step b :
  Forall (in_place g w) (snd (autoencoder_step g w step b)).
Proof. unfold autoencoder_step. in_place_cases. Qed.

Lemma train_in_place g w : Forall (in_place g w) (snd (train g w)).
Proof.
  unfold train. destruct (is_Classifier (MODEL g)) eqn:Hc.
  - apply training_log; simpl; auto using restore_previous_in_place.
    intros. apply classifier_step_in_place.
  - destruct (is_Autoencoder (MODEL g)); [|constructor].
    apply training_log; simpl; auto using restore_previous_in_place.
    intros. apply autoencoder_step_in_place.
Qed.

(** X6: whatever happens, [train()] evaluates only the checkpoints of
    [LOG_DIR], only on the validation split and only with the function of
    the model's kind; it saves training checkpoints only in [LOG_DIR] and
    best models only in [BEST_MODEL_DIR]; and it restores a checkpoint only
    when the run is not a restart, and then the latest one of [LOG_DIR]. *)
Theorem train_stays_in_place (g : Globals) (w : World) :
  (forall which dir input_type,
     In (Evaluated which dir input_type) (snd (train g w)) ->
     which = (if is_Classifier (MODEL g) then accuracy else error)
     /\ dir = LOG_DIR g /\ input_type = InputType.validation)
  /\ (forall dir step, In (SaveTrain dir step) (snd (train g w)) -> dir = LOG_DIR g)
  /\ (forall dir step, In (SaveBest dir step) (snd (train g w)) -> dir = BEST_MODEL_DIR g)
  /\ (forall path, In (Restored path) (snd (train g w)) ->
        restart (ARGS g) = false /\ latest_checkpoint w (LOG_DIR g) = Some path).
Proof.
  pose proof (train_in_place g w) as H. rewrite Forall_forall in H.
  split; [|split; [|split]].
  - intros which dir input_type Hin. apply list_elem_of_In, H in Hin. exact Hin.
  - intros dir step Hin. apply list_elem_of_In, H in Hin. exact Hin.
  - intros dir step Hin. apply list_elem_of_In, H in Hin. exact Hin.
  - intros path Hin. apply list_elem_of_In, H in Hin. exact Hin.
Qed.

(** *** Which steps are evaluated *)

Lemma in_range_iff j a b : In j (range a b) <-> a <= j < b.
Proof. unfold range. rewrite <- list_elem_of_In, elem_of_seqZ. lia. Qed.

Section EvaluationSteps.
Variables (g : Globals) (w : World).
Variable body : Z -> float -> flow * list event.
Hypothesis body_continue : forall step b b' l,
  body step b = (Continue b', l) ->
  map fst (evaluations l) = if at_epoch_end g step then [step] else [].
Hypothesis body_break : forall step b b' l,
  body step b = (Break b', l) -> is_nan (loss w step) = true.

Lemma for_loop_evaluation_steps steps best f l :
  (forall s, In s steps -> is_nan (loss w s) = false) ->
  for_loop body steps best = (f, l) ->
  (forall e, f <> Throw e) ->
  map fst (evaluations l) = List.filter (at_epoch_end g) steps.
Proof.
  revert best f l. induction steps as [|step rest IH]; intros best f l Hnan; simpl.
  - intros [= <- <-] _. reflexivity.
  - destruct (body step best) as [[b1|b1|e1] l1] eqn:E1.
    + destruct (for_loop body rest b1) as [f2 l2] eqn:E2. intros [= <- <-] Hf.
      rewrite TrainFacts.evaluations_app, map_app, (body_continue _ _ _ _ E1).
      rewrite (IH _ _ _ (fun s Hs => Hnan s (or_intror Hs)) E2 Hf).
      destruct (at_epoch_end g step); reflexivity.
    + apply body_break in E1. rewrite (Hnan step (or_introl eq_refl)) in E1.
      discriminate.
    + intros [= <- <-] Hf. destruct (Hf e1 eq_refl).
Qed.

Lemma training_evaluation_steps best r l :
  (forall s, old_gs w <= s < MAX_STEPS g -> is_nan (loss w s) = false) ->
  training g w body best = (Returned r, l) ->
  map fst (evaluations l)
  = List.filter (at_epoch_end g) (range (old_gs w) (MAX_STEPS g)).
Proof.
  intros Hnan. unfold training.
  destruct (for_loop body (range (old_gs w) (MAX_STEPS g)) best) as [f l'] eqn:E.
  destruct (TrainFacts.restore_previous_quiet g w) as [Q _].
  assert (H : (forall e, f <> Throw e) ->
              map fst (evaluations l')
              = List.filter (at_epoch_end g) (range (old_gs w) (MAX_STEPS g))).
  { apply (for_loop_evaluation_steps _ best); [|exact E].
    intros s Hs. apply Hnan, in_range_iff, Hs. }
  destruct f; intros [= <- <-];
    rewrite !TrainFacts.evaluations_app, Q; simpl; rewrite app_nil_r;
    apply H; discriminate.
Qed.

End EvaluationSteps.

Ltac evaluation_cases H :=
  unfold eval_model, epoch_end, epoch_number, raise, at_epoch_end in *;
  repeat case_match; simplify_eq; simpl in *; try reflexivity; try congruence.

Lemma classifier_step_evaluation g w step b b' l :
  classifier_step g w step b = (Continue b', l) ->
  map fst (evaluations l) = if at_epoch_end g step then [step] else [].
Proof. intros H. unfold classifier_step in H. evaluation_cases H. Qed.

Lemma autoencoder_step_evaluation g w step b b' l :
  autoencoder_step g w step b = (Continue b', l) ->
  map fst (evaluations l) = if at_epoch_end g step then [step] else [].
Proof. intros H. unfold autoencoder_step in H. evaluation_cases H. Qed.

Lemma classifier_step_break g w step b b' l :
  classifier_step g w step b = (Break b', l) -> is_nan (loss w step) = true.
Proof. intros H. unfold classifier_step in H. evaluation_cases H. Qed.

Lemma autoencoder_step_break g w step b b' l :
  autoencoder_step g w step b = (Break b', l) -> is_nan (loss w step) = true.
Proof. intros H. unfold autoencoder_step in H. evaluation_cases H. Qed.

(** X7: in a training that returns and meets no NaN loss, the steps with
    an epoch-end evaluation are, in order and once each, the steps of
    [range(old_gs, MAX_STEPS)] that are positive multiples of
    [STEPS_PER_EPOCH] or the last step [MAX_STEPS - 1]: the last step is
    always evaluated, and step 0 only when it is the last. *)
Theorem evaluation_steps (g : Globals) (w : World) (r : float) (l : list event) :
  (forall s, old_gs w <= s < MAX_STEPS g -> is_nan (loss w s) = false) ->
  classifier g w = (Returned r, l) \/ autoencoder g w = (Returned r, l) ->
  map fst (evaluations l)
  = List.filter (at_epoch_end g) (range (old_gs w) (MAX_STEPS g))
  /\ (forall s, In s (map fst (evaluations l)) <->
        old_gs w <= s < MAX_STEPS g
        /\ ((0 < s /\ s mod STEPS_PER_EPOCH g = 0) \/ s + 1 = MAX_STEPS g))
  /\ (old_gs w < MAX_STEPS g -> In (MAX_STEPS g - 1) (map fst (evaluations l)))
  /\ (In 0 (map fst (evaluations l)) -> MAX_STEPS g = 1).
Proof.
  intros Hnan Hrun.
  assert (E : map fst (evaluations l)
              = List.filter (at_epoch_end g) (range (old_gs w) (MAX_STEPS g))).
  { destruct Hrun as [H|H].
    - exact (training_evaluation_steps g w _ (classifier_step_evaluation g w)
               (classifier_step_break g w) _ _ _ Hnan H).
    - exact (training_evaluation_steps g w _ (autoencoder_step_evaluation g w)
               (autoencoder_step_break g w) _ _ _ Hnan H). }
  assert (M : forall s, In s (map fst (evaluations l)) <->
                old_gs w <= s < MAX_STEPS g
                /\ ((0 < s /\ s mod STEPS_PER_EPOCH g = 0) \/ s + 1 = MAX_STEPS g)).
  { intros s. rewrite E, filter_In, in_range_iff. unfold at_epoch_end.
    rewrite orb_true_iff, andb_true_iff, Z.ltb_lt, !Z.eqb_eq. reflexivity. }
  split; [exact E|]. split; [exact M|]. split.
  - intros Hlt. apply M. lia.
  - intros H0. apply M in H0. lia.
Qed.

(** Steps 0 to 5 in epochs of three: step 3 and the last step 5. *)
Lemma evaluation_steps_witness :
  map fst (evaluations (snd (classifier (TrainExamples.globals TrainExamples.a_classifier)
                               TrainExamples.improving)))
  = [3; 5].
Proof.
  refine (proj1 (evaluation_steps (TrainExamples.globals TrainExamples.a_classifier)
                   TrainExamples.improving 0.75%float _ _ (or_introl eq_refl))).
  intros s _. reflexivity.
Defined.

Lemma range_empty a b : b <= a -> range a b = [].
Proof. intros H. unfold range. apply seqZ_nil. lia. Qed.

(** X8: a training whose global step has already reached [MAX_STEPS] does
    no step: it evaluates and saves nothing and returns the start value,
    0.0 for a classifier and [+inf] for an autoencoder, whatever the best
    value of the earlier run was. *)
Theorem finished_run_returns_start (g : Globals) (w : World) :
  MAX_STEPS g <= old_gs w ->
  classifier g w
  = (Returned 0%float, restore_previous g w ++ [RequestStop None; Join])
  /\ autoencoder g w
     = (Returned infinity, restore_previous g w ++ [RequestStop None; Join]).
Proof.
  intros H. unfold classifier, autoencoder, training.
  rewrite (range_empty _ _ H). split; reflexivity.
Qed.

Lemma finished_run_returns_start_witness :
  classifier (TrainExamples.globals TrainExamples.a_classifier)
    MoreTrainExamples.finished
  = (Returned 0%float,
     [Restored "/home/u/dtb/log/LeNet/run1/model.ckpt-5"; RequestStop None; Join]).
Proof.
  refine (proj1 (finished_run_returns_start
                   (TrainExamples.globals TrainExamples.a_classifier)
                   MoreTrainExamples.finished _)).
  simpl. lia.
Defined.

(** *** The best model that is left on disk *)

Section LastSaved.
Variable lt : float -> float -> bool.
Hypothesis lt_irrefl : forall a, lt a a = false.
Hypothesis lt_trans : forall a b c, lt a b = true -> lt b c = true -> lt a c = true.

Lemma improvements_nil_best start evs :
  improvements lt start evs = [] -> best_of lt start evs = start.
Proof.
  revert start. induction evs as [|[s x] evs IH]; intros start; simpl; [reflexivity|].
  destruct (lt start x); [discriminate|apply IH].
Qed.

Lemma best_of_start_or_above start evs :
  best_of lt start evs = start \/ lt start (best_of lt start evs) = true.
Proof.
  revert start. induction evs as [|[s x] evs IH]; intros start; simpl; [auto|].
  destruct (lt start x) eqn:E; [|apply IH].
  right. destruct (IH x) as [H|H]; unfold best_of in *.
  - rewrite H. exact E.
  - exact (lt_trans _ _ _ E H).
Qed.

Lemma improvements_above start evs :
  improvements lt start evs <> [] -> lt start (best_of lt start evs) = true.
Proof.
  revert start. induction evs as [|[s x] evs IH]; intros start; simpl; [congruence|].
  destruct (lt start x) eqn:E; [intros _|apply IH].
  destruct (best_of_start_or_above x evs) as [H|H]; unfold best_of in *.
  - rewrite H. exact E.
  - exact (lt_trans _ _ _ E H).
Qed.

Lemma last_improvement start evs s :
  last (improvements lt start evs) = Some s -> In (s, best_of lt start evs) evs.
Proof.
  revert start. induction evs as [|[s0 x] evs IH]; intros start; simpl; [discriminate|].
  destruct (lt start x) eqn:E; [|intros H; right; apply IH, H].
  destruct (improvements lt x evs) as [|s1 rest] eqn:Ei.
  - intros [= <-]. left. f_equal. symmetry.
    apply (improvements_nil_best x evs Ei).
  - rewrite last_cons_cons, <- Ei. intros H. right. apply IH, H.
Qed.

Lemma saved_exactly_when_improved start evs :
  improvements lt start evs = [] <-> best_of lt start evs = start.
Proof.
  split; [apply improvements_nil_best|].
  intros H. destruct (improvements lt start evs) eqn:E; [reflexivity|].
  assert (Hne : improvements lt start evs <> []) by congruence.
  apply improvements_above in Hne. rewrite H, lt_irrefl in Hne. discriminate.
Qed.

End LastSaved.

(** X9: the best model saved last is the one whose validation value is
    returned: when [classifier()] returns [r], the last step at which it
    saved a best model was evaluated to [r], and [r] exceeds 0.0; it saved
    no best model at all exactly when [r] is 0.0.  Dually for
    [autoencoder()], with a value below [+inf], and no save exactly when it
    returns [+inf]. *)
Theorem best_model_saved_last (g : Globals) (w : World) (r : float) (l : list event) :
  (classifier g w = (Returned r, l) ->
     (saved_best l = [] <-> r = 0%float)
     /\ (forall s, last (saved_best l) = Some s ->
           In (s, r) (evaluations l) /\ (0 <? r)%float = true))
  /\ (autoencoder g w = (Returned r, l) ->
     (saved_best l = [] <-> r = infinity)
     /\ (forall s, last (saved_best l) = Some s ->
           In (s, r) (evaluations l) /\ (r <? infinity)%float = true)).
Proof.
  split; intros H.
  - destruct (TrainFacts.training_spec higher _ (TrainFacts.classifier_step_spec g w)
                _ _ _ _ _ H) as [-> ->].
    split.
    + apply (saved_exactly_when_improved higher TrainFacts.higher_irrefl
               TrainFacts.higher_trans).
    + intros s Hs. split; [apply (last_improvement higher), Hs|].
      apply (improvements_above higher TrainFacts.higher_trans).
      intros E. rewrite E in Hs. discriminate.
  - destruct (TrainFacts.training_spec lower _ (TrainFacts.autoencoder_step_spec g w)
                _ _ _ _ _ H) as [-> ->].
    split.
    + apply (saved_exactly_when_improved lower TrainFacts.lower_irrefl
               TrainFacts.lower_trans).
    + intros s Hs. split; [apply (last_improvement lower), Hs|].
      apply (improvements_above lower TrainFacts.lower_trans).
      intros E. rewrite E in Hs. discriminate.
Qed.

(** The best model was saved at steps 3 and 5; step 5 was evaluated to the
    returned 0.75. *)
Lemma best_model_saved_last_witness :
  last (saved_best (snd (classifier (TrainExamples.globals TrainExamples.a_classifier)
                           TrainExamples.improving))) = Some 5
  /\ In (5, 0.75%float)
       (evaluations (snd (classifier (TrainExamples.globals TrainExamples.a_classifier)
                            TrainExamples.improving)))
  /\ (0 <? 0.75)%float = true.
Proof.
  split; [reflexivity|].
  exact (proj2 (proj1 (best_model_saved_last
                         (TrainExamples.globals TrainExamples.a_classifier)
                         TrainExamples.improving 0.75%float _) eq_refl) 5 eq_refl).
Defined.

(** *** The result files, whatever happens *)

Lemma append_nil_r (a : string) : a +:+ "" = a.
Proof.
  induction a as [|x a IH]; [reflexivity|].
  change (String x (a +:+ "") = String x a). f_equal. exact IH.
Qed.

Lemma append_assoc (a b c : string) : (a +:+ b) +:+ c = a +:+ (b +:+ c).
Proof.
  induction a as [|x a IH]; [reflexivity|].
  change (String x ((a +:+ b) +:+ c) = String x (a +:+ (b +:+ c))). f_equal. exact IH.
Qed.

(** The value the script writes to the test file. *)
Lemma eval_model_test g ev checkpoint_dir v l :
  train g v = (Returned l.1, l.2) ->
  eval_model g ev checkpoint_dir (InputTypeObject InputType.test)
  = (Returned (ev (if is_Classifier (MODEL g) then accuracy else error)
                 checkpoint_dir InputType.test),
     [Evaluated (if is_Classifier (MODEL g) then accuracy else error)
        checkpoint_dir InputType.test]).
Proof.
  unfold train, eval_model.
  destruct (is_Classifier (MODEL g)); [reflexivity|].
  destruct (is_Autoencoder (MODEL g)); [reflexivity|discriminate].
Qed.

Lemma main_returns g sw fs VALIDATION_METRIC l :
  train g (run sw) = (Returned VALIDATION_METRIC, l) ->
  main g sw fs
  = ((Returned tt,
      l ++ [Evaluated (if is_Classifier (MODEL g) then accuracy else error)
              (BEST_MODEL_DIR g) InputType.test]),
     append
       (append fs (validation_results g)
          (result_line (now_validation sw) (model (ARGS g)) (NAME g)
             (format_float sw VALIDATION_METRIC)))
       (test_results g)
       (result_line (now_test sw) (model (ARGS g)) (NAME g)
          (format_float sw
             (final_evaluate sw (if is_Classifier (MODEL g) then accuracy else error)
                (BEST_MODEL_DIR g) InputType.test)))).
Proof.
  intros H. unfold main. rewrite H.
  rewrite (eval_model_test g (final_evaluate sw) (BEST_MODEL_DIR g) (run sw)
             (VALIDATION_METRIC, l) H).
  reflexivity.
Qed.

Lemma main_raises g sw fs e l :
  train g (run sw) = (Raised e, l) -> main g sw fs = ((Raised e, l), fs).
Proof. intros H. unfold main. rewrite H. reflexivity. Qed.

(** X10: in every outcome the end of the script only appends to its two
    result files: what a result file held stays in front of what it holds
    afterwards.  When [train()] raises, the script ends with that
    exception before a result file is opened: neither file is created or
    changed, and nothing is evaluated after the training. *)
Theorem main_only_appends (g : Globals) (sw : ScriptWorld) (fs : Files)
    (path : string) :
  path = validation_results g \/ path = test_results g ->
  (forall content, fs !! path = Some content ->
     exists text, snd (main g sw fs) !! path = Some (content +:+ text))
  /\ (forall e l, train g (run sw) = (Raised e, l) ->
        fst (main g sw fs) = (Raised e, l)
        /\ snd (main g sw fs) !! path = fs !! path).
Proof.
  intros Hpath.
  pose proof (TrainFacts.result_files_differ g) as Hne.
  destruct (train g (run sw)) as [[v|e] l] eqn:Htrain.
  - rewrite (main_returns g sw fs v l Htrain). unfold append. simpl.
    split; [|discriminate].
    intros content Hc. destruct Hpath as [-> | ->].
    + rewrite lookup_insert_ne, lookup_insert_eq, Hc by congruence. simpl. eauto.
    + rewrite lookup_insert_eq, lookup_insert_ne, Hc by congruence. simpl. eauto.
  - rewrite (main_raises g sw fs e l Htrain). simpl. split.
    + intros content Hc. exists "". rewrite append_nil_r. exact Hc.
    + intros e' l' [= <- <-]. split; reflexivity.
Qed.

(** A model that is neither a classifier nor an autoencoder: the training
    raises, the validation file keeps the line of the earlier run and no
    test file appears. *)
Lemma main_only_appends_witness :
  fst (fst (main (TrainExamples.globals TrainExamples.something_else)
              TrainExamples.script TrainExamples.earlier))
  = Raised (ValueError "train method not defined for this model type")
  /\ snd (main (TrainExamples.globals TrainExamples.something_else)
            TrainExamples.script TrainExamples.earlier)
     !! "/home/u/dtb/test_results.txt" = None
  /\ exists text,
       snd (main (TrainExamples.globals TrainExamples.something_else)
              TrainExamples.script TrainExamples.earlier)
       !! "/home/u/dtb/validation_results.txt"
       = Some (("2017-02-28 09:00:00.000001 LeNet: run0 0.5" +:+ LF) +:+ text).
Proof.
  destruct (main_only_appends (TrainExamples.globals TrainExamples.something_else)
              TrainExamples.script TrainExamples.earlier
              "/home/u/dtb/test_results.txt" (or_intror eq_refl)) as [_ Hraise].
  destruct (Hraise (ValueError "train method not defined for this model type") []
              eq_refl) as [Hout Hfile].
  split; [rewrite Hout; reflexivity|]. split; [rewrite Hfile; reflexivity|].
  exact (proj1 (main_only_appends (TrainExamples.globals TrainExamples.something_else)
                  TrainExamples.script TrainExamples.earlier
                  "/home/u/dtb/validation_results.txt" (or_introl eq_refl))
           _ eq_refl).
Defined.

(** X11: two runs of the script in the same directory leave, after what
    each result file held, the line of the first run followed by the line
    of the second. *)
Theorem results_of_two_runs (g1 g2 : Globals) (sw1 sw2 : ScriptWorld) (fs : Files)
    (v1 v2 : float) (l1 l2 : list event) :
  CURRENT_DIR g2 = CURRENT_DIR g1 ->
  train g1 (run sw1) = (Returned v1, l1) ->
  train g2 (run sw2) = (Returned v2, l2) ->
  let kind g := if is_Classifier (MODEL g) then accuracy else error in
  let test_value g sw := final_evaluate sw (kind g) (BEST_MODEL_DIR g) InputType.test in
  let fs2 := snd (main g2 sw2 (snd (main g1 sw1 fs))) in
  fs2 !! validation_results g1
  = Some (default "" (fs !! validation_results g1)
          +:+ result_line (now_validation sw1) (model (ARGS g1)) (NAME g1)
                (format_float sw1 v1)
          +:+ result_line (now_validation sw2) (model (ARGS g2)) (NAME g2)
                (format_float sw2 v2))
  /\ fs2 !! test_results g1
     = Some (default "" (fs !! test_results g1)
             +:+ result_line (now_test sw1) (model (ARGS g1)) (NAME g1)
                   (format_float sw1 (test_value g1 sw1))
             +:+ result_line (now_test sw2) (model (ARGS g2)) (NAME g2)
                   (format_float sw2 (test_value g2 sw2))).
Proof.
  intros Hdir H1 H2 kind test_value fs2. subst fs2 kind test_value.
  pose proof (TrainFacts.result_files_differ g1) as Hne.
  rewrite (main_returns g1 sw1 fs v1 l1 H1), (main_returns g2 sw2 _ v2 l2 H2).
  unfold validation_results, test_results, append in *. simpl. rewrite Hdir.
  split;
    repeat (rewrite lookup_insert_eq || rewrite lookup_insert_ne by congruence);
    simpl; rewrite append_assoc; reflexivity.
Qed.

(** The earlier line, then the two lines of the two runs. *)
Lemma results_of_two_runs_witness :
  snd (main (TrainExamples.globals TrainExamples.a_classifier)
         MoreTrainExamples.second_script
         (snd (main (TrainExamples.globals TrainExamples.a_classifier)
                 TrainExamples.script TrainExamples.earlier)))
  !! "/home/u/dtb/validation_results.txt"
  = Some ("2017-02-28 09:00:00.000001 LeNet: run0 0.5" +:+ LF
          +:+ "2017-03-01 10:00:00.000001 LeNet: run1 0.75" +:+ LF
          +:+ "2017-03-02 10:00:00.000001 LeNet: run1 0.75" +:+ LF).
Proof.
  exact (proj1 (results_of_two_runs
                  (TrainExamples.globals TrainExamples.a_classifier)
                  (TrainExamples.globals TrainExamples.a_classifier)
                  TrainExamples.script MoreTrainExamples.second_script
                  TrainExamples.earlier 0.75%float 0.75%float _ _
                  eq_refl eq_refl eq_refl)).
Defined.

(** X12: when the script ends normally the test split has been evaluated
    exactly once: as its last action, on [BEST_MODEL_DIR], with the function
    of the model's kind; every evaluation before it was on the validation
    split, on [LOG_DIR]. *)
Theorem test_split_evaluated_once (g : Globals) (sw : ScriptWorld) (fs : Files)
    (l : list event) (fs' : Files) :
  main g sw fs = ((Returned tt, l), fs') ->
  exists l0,
    l = l0 ++ [Evaluated (if is_Classifier (MODEL g) then accuracy else error)
                 (BEST_MODEL_DIR g) InputType.test]
    /\ forall which dir input_type, In (Evaluated which dir input_type) l0 ->
         dir = LOG_DIR g /\ input_type = InputType.validation.
Proof.
  intros H. destruct (train g (run sw)) as [[v|e] l0] eqn:Htrain.
  - rewrite (main_returns g sw fs v l0 Htrain) in H. injection H as <- _.
    exists l0. split; [reflexivity|].
    intros which dir input_type Hin.
    pose proof (train_in_place g (run sw)) as Hall. rewrite Htrain in Hall.
    rewrite Forall_forall in Hall. apply list_elem_of_In, Hall in Hin.
    simpl in Hin. tauto.
  - rewrite (main_raises g sw fs e l0 Htrain) in H. discriminate.
Qed.

Lemma test_split_evaluated_once_witness :
  exists l0,
    snd (fst (main (TrainExamples.globals TrainExamples.a_classifier)
                TrainExamples.script TrainExamples.earlier))
    = l0 ++ [Evaluated accuracy "/home/u/dtb/log/LeNet/run1/best" InputType.test]
    /\ forall which dir input_type, In (Evaluated which dir input_type) l0 ->
         dir = "/home/u/dtb/log/LeNet/run1" /\ input_type = InputType.validation.
Proof.
  exact (test_split_evaluated_once (TrainExamples.globals TrainExamples.a_classifier)
           TrainExamples.script TrainExamples.earlier _ _ eq_refl).
Defined.

(** *** How many evaluations a run makes *)

Lemma seqZ_snoc (n : Z) : 0 <= n -> seqZ 0 (n + 1) = seqZ 0 n ++ [n].
Proof. intros H. rewrite seqZ_app by lia. reflexivity. Qed.

(** The positive multiples of [k] below [n]. *)
Lemma count_multiples (k : Z) (n : nat) :
  1 <= k ->
  Z.of_nat (length (List.filter (fun s => (0 <? s) && (s mod k =? 0))
                      (seqZ 0 (Z.of_nat n))))
  = match n with O => 0 | S m => Z.of_nat m / k end.
Proof.
  intros Hk. induction n as [|n IH]; [reflexivity|].
  replace (Z.of_nat (S n)) with (Z.of_nat n + 1) by lia.
  rewrite seqZ_snoc by lia.
  rewrite List.filter_app, length_app, Nat2Z.inj_add, IH. simpl List.filter.
  destruct n as [|m]; [reflexivity|].
  replace (0 <? Z.of_nat (S m)) with true by (symmetry; apply Z.ltb_lt; lia).
  simpl andb.
  pose proof (Z.div_mod (Z.of_nat (S m)) k ltac:(lia)) as D.
  pose proof (Z.mod_pos_bound (Z.of_nat (S m)) k ltac:(lia)) as B.
  destruct (Z.eqb_spec (Z.of_nat (S m) mod k) 0) as [E|E]; simpl length.
  - rewrite E in D.
    assert (Z.of_nat m / k = Z.of_nat (S m) / k - 1) as ->; [|lia].
    symmetry. apply (Z.div_unique _ _ _ (k - 1)); [lia|]. nia.
  - assert (Z.of_nat m / k = Z.of_nat (S m) / k) as ->; [|lia].
    symmetry. apply (Z.div_unique _ _ _ (Z.of_nat (S m) mod k - 1)); [lia|]. nia.
Qed.

Lemma count_epoch_ends (g : Globals) (E : Z) :
  1 <= STEPS_PER_EPOCH g -> 1 <= E -> MAX_STEPS g = STEPS_PER_EPOCH g * E ->
  Z.of_nat (length (List.filter (at_epoch_end g) (range 0 (MAX_STEPS g))))
  = if STEPS_PER_EPOCH g =? 1 then Z.max 1 (E - 1) else E.
Proof.
  intros Hs HE HM. unfold range. rewrite Z.sub_0_r.
  assert (H1 : 1 <= MAX_STEPS g) by nia.
  replace (MAX_STEPS g) with ((MAX_STEPS g - 1) + 1) at 1 by lia.
  rewrite seqZ_snoc by lia.
  rewrite List.filter_app, length_app, Nat2Z.inj_add.
  rewrite (List.filter_ext_in (at_epoch_end g)
             (fun s => (0 <? s) && (s mod STEPS_PER_EPOCH g =? 0))).
  - replace (MAX_STEPS g - 1) with (Z.of_nat (Z.to_nat (MAX_STEPS g - 1))) at 1 by lia.
    rewrite (count_multiples _ _ Hs).
    assert (Hlast : at_epoch_end g (MAX_STEPS g - 1) = true).
    { unfold at_epoch_end. apply orb_true_iff. right. apply Z.eqb_eq. lia. }
    simpl List.filter. rewrite Hlast. simpl length.
    destruct (Z.to_nat (MAX_STEPS g - 1)) as [|m] eqn:Em.
    + assert (MAX_STEPS g = 1) by lia.
      assert (STEPS_PER_EPOCH g = 1 /\ E = 1) as [-> ->] by nia. reflexivity.
    + assert (Hm : Z.of_nat m = STEPS_PER_EPOCH g * E - 2) by lia.
      rewrite Hm.
      destruct (Z.eqb_spec (STEPS_PER_EPOCH g) 1) as [Hone|Hne].
      * rewrite Hone in *. rewrite Z.div_1_r. lia.
      * assert ((STEPS_PER_EPOCH g * E - 2) / STEPS_PER_EPOCH g = E - 1) as ->; [|lia].
        symmetry. apply (Z.div_unique _ _ _ (STEPS_PER_EPOCH g - 2)); [lia|]. nia.
  - intros s Hs'. apply list_elem_of_In, elem_of_seqZ in Hs'. unfold at_epoch_end.
    replace (s + 1 =? MAX_STEPS g) with false; [apply orb_false_r|].
    symmetry. apply Z.eqb_neq. lia.
Qed.

(** X15: a fresh run (global step 0) that meets no NaN loss and returns
    evaluates once per epoch when an epoch has two steps or more; when an
    epoch is a single step, step 0 is skipped and the run evaluates one
    time less than it has epochs (once, if it has one epoch). *)
Theorem evaluations_per_run (g : Globals) (w : World) (E : Z) (r : float)
    (l : list event) :
  old_gs w = 0 ->
  1 <= STEPS_PER_EPOCH g -> 1 <= E -> MAX_STEPS g = STEPS_PER_EPOCH g * E ->
  (forall s, 0 <= s < MAX_STEPS g -> is_nan (loss w s) = false) ->
  classifier g w = (Returned r, l) \/ autoencoder g w = (Returned r, l) ->
  Z.of_nat (length (evaluations l))
  = if STEPS_PER_EPOCH g =? 1 then Z.max 1 (E - 1) else E.
Proof.
  intros Hgs Hs HE HM Hnan Hrun.
  rewrite <- (length_map fst (evaluations l)).
  assert (Hev : map fst (evaluations l)
                = List.filter (at_epoch_end g) (range 0 (MAX_STEPS g))).
  { rewrite <- Hgs. rewrite <- Hgs in Hnan. destruct Hrun as [H|H].
    - exact (training_evaluation_steps g w _ (classifier_step_evaluation g w)
               (classifier_step_break g w) _ _ _ Hnan H).
    - exact (training_evaluation_steps g w _ (autoencoder_step_evaluation g w)
               (autoencoder_step_break g w) _ _ _ Hnan H). }
  rewrite Hev. apply count_epoch_ends; assumption.
Qed.

(** Two epochs of three steps: two evaluations. *)
Lemma evaluations_per_run_witness :
  Z.of_nat (length (evaluations
                      (snd (classifier (TrainExamples.globals TrainExamples.a_classifier)
                              TrainExamples.improving)))) = 2.
Proof.
  refine (evaluations_per_run (TrainExamples.globals TrainExamples.a_classifier)
            TrainExamples.improving 2 0.75%float _ eq_refl _ _ eq_refl _
            (or_introl eq_refl)); simpl; try lia.
  intros s _. reflexivity.
Defined.

End TrainEdges.
